(** * PKI management console (streamlit/app.py): a shallow embedding

    The console wraps the [step] command-line client of a certificate
    authority.  Its functions build argument vectors, run the client as a
    subprocess, and keep one directory per common name under [CERTS_DIR].

    The embedding has four layers:
    - Python text operations used by the source ([str.strip], [str.lower],
      the substring test [in], integer formatting);
    - [pathlib] pure paths (the [/] operator, [str], [.name]);
    - a file-system tree with the calls the source makes ([mkdir], [exists],
      [is_dir], [iterdir], [open], [rename], [shutil.rmtree]);
    - the functions of app.py in a state-and-exception monad over a world
      made of the file system, the external CA state, the clock and the log
      of subprocess invocations.

    What lies outside app.py is modelled as follows.
    - Text is a string of code points below 256; files hold such text.
    - The file system has regular files and directories only: no symbolic
      links, no permissions, no names with a NUL character.
    - The [step] client, the X.509 parser and the date formatter are
      parameters ([Platform]).  The client is a function of its argument
      vector, of [STEPPATH], of the file system and of the state of the CA;
      it answers with a completed process or fails to start, and may change
      the file system and the CA state.
    - Exceptions are instances of [Exception]; interpreter signals such as
      [KeyboardInterrupt], which [except Exception] lets through, are not
      modelled. *)

From stdpp Require Import gmap strings list pretty.
From Stdlib Require Import ZArith Ascii String Sorted.

#[local] Set Warnings "-register-all".
#[local] Open Scope string_scope.
#[local] Open Scope list_scope.
#[local] Open Scope Z_scope.

(** ** Python text *)

Module PyStr.

(** A Python [str] is modelled by a string of code points below 256. *)

(** [c.isspace()] on that range: TAB..CR, FS..US, space, NEL, NBSP. *)
Definition isspace (c : ascii) : bool :=
  let n := nat_of_ascii c in
  ((9 <=? n)%nat && (n <=? 13)%nat) || ((28 <=? n)%nat && (n <=? 32)%nat)
  || (n =? 133)%nat || (n =? 160)%nat.

Fixpoint lstrip (s : string) : string :=
  match s with
  | String c s' => if isspace c then lstrip s' else s
  | EmptyString => EmptyString
  end.

(** [rstrip] keeps a character when it is not a space or when something
    is kept after it. *)
Fixpoint rstrip (s : string) : string :=
  match s with
  | String c s' =>
      match rstrip s' with
      | EmptyString => if isspace c then EmptyString else String c EmptyString
      | r => String c r
      end
  | EmptyString => EmptyString
  end.

(** [s.strip()] *)
Definition strip (s : string) : string := rstrip (lstrip s).

(** [c.lower()] on code points below 256: A..Z and the accented capitals
    U+00C0..U+00DE (the multiplication sign U+00D7 apart) move by 32. *)
Definition lower_char (c : ascii) : ascii :=
  let n := nat_of_ascii c in
  if ((65 <=? n)%nat && (n <=? 90)%nat)
     || ((192 <=? n)%nat && (n <=? 222)%nat && negb (n =? 215)%nat)
  then ascii_of_nat (n + 32) else c.

(** [s.lower()] *)
Fixpoint lower (s : string) : string :=
  match s with
  | String c s' => String (lower_char c) (lower s')
  | EmptyString => EmptyString
  end.

(** [s.startswith(p)] *)
Fixpoint startswith (p s : string) : bool :=
  match p, s with
  | EmptyString, _ => true
  | String a p', String b s' => if Ascii.eqb a b then startswith p' s' else false
  | String _ _, EmptyString => false
  end.

(** [sub in s] *)
Fixpoint contains (sub s : string) : bool :=
  startswith sub s
  || match s with
     | String _ s' => contains sub s'
     | EmptyString => false
     end.

(** [s.split("/")] *)
Fixpoint split_slash (s : string) : list string :=
  match s with
  | EmptyString => [EmptyString]
  | String c s' =>
      if Ascii.eqb c "/" then EmptyString :: split_slash s'
      else match split_slash s' with
           | h :: t => String c h :: t
           | [] => [String c EmptyString]
           end
  end.

(** [sep.join(l)] *)
Fixpoint join (sep : string) (l : list string) : string :=
  match l with
  | [] => EmptyString
  | [x] => x
  | x :: rest => x +:+ sep +:+ join sep rest
  end.

(** [str(n)] for a Python [int] *)
Definition of_int (n : Z) : string := pretty n.

(** A truthy string is a non-empty one. *)
Definition truthy (s : string) : bool :=
  match s with EmptyString => false | _ => true end.

End PyStr.

(** ** pathlib pure paths (POSIX flavour) *)

Module PurePath.

(** A parsed path: the root (["/"], ["//"] or empty for a relative path)
    and the components that are neither empty nor ["."]. *)
Record t := mk { root : string; parts : list string }.

Definition kept (c : string) : bool :=
  negb (String.eqb c "") && negb (String.eqb c ".").

Definition components (s : string) : list string :=
  List.filter kept (PyStr.split_slash s).

(** [posixpath.splitroot]: exactly two leading slashes are kept apart. *)
Definition root_of (s : string) : string :=
  match s with
  | String "/" (String "/" (String "/" _)) => "/"
  | String "/" (String "/" _) => "//"
  | String "/" _ => "/"
  | _ => ""
  end.

Definition parse (s : string) : t := mk (root_of s) (components s).

(** [p / s]: an absolute right operand replaces the left one. *)
Definition join (p : t) (s : string) : t :=
  if PyStr.startswith "/" s then parse s
  else mk (root p) (parts p ++ components s).

(** [str(p)] *)
Definition str (p : t) : string :=
  match root p, parts p with
  | EmptyString, [] => "."
  | r, ps => r +:+ PyStr.join "/" ps
  end.

(** [p.name] *)
Definition name (p : t) : string := List.last (parts p) "".

End PurePath.

Infix "/:" := PurePath.join (at level 40, left associativity).

(** ** The file system *)

Module FS.

(** A regular file with its content, or a directory with its entries.
    There are no symbolic links and no permissions. *)
Inductive node :=
| File (data : string)
| Dir (children : gmap string node).

(** A resolved location: the names from the root down. *)
Definition loc := list string.

Inductive errno := ENOENT | ENOTDIR | EISDIR | EEXIST | EINVAL | ENOTEMPTY | EBUSY.

Inductive result (A : Type) :=
| Ok (a : A)
| Err (e : errno).
Arguments Ok {A} a.
Arguments Err {A} e.

Fixpoint get (n : node) (p : loc) : option node :=
  match p with
  | [] => Some n
  | c :: p' =>
      match n with
      | Dir ch => match ch !! c with Some n' => get n' p' | None => None end
      | File _ => None
      end
  end.

(** [put n p x] stores [x] at [p] when the parent of [p] is a directory of
    [n], and leaves [n] alone otherwise. *)
Fixpoint put (n : node) (p : loc) (x : node) : node :=
  match p with
  | [] => x
  | c :: p' =>
      match n with
      | Dir ch =>
          match p', ch !! c with
          | [], _ => Dir (<[c := x]> ch)
          | _, Some n' => Dir (<[c := put n' p' x]> ch)
          | _, None => n
          end
      | File _ => n
      end
  end.

(** [remove n p] unlinks the entry at [p] with everything below it. *)
Fixpoint remove (n : node) (p : loc) : node :=
  match p with
  | [] => n
  | c :: p' =>
      match n with
      | Dir ch =>
          match p', ch !! c with
          | [], _ => Dir (delete c ch)
          | _, Some n' => Dir (<[c := remove n' p']> ch)
          | _, None => n
          end
      | File _ => n
      end
  end.

(** Path resolution as the kernel does it: every component is looked up
    in a directory, [".."] goes to the parent (the root is its own
    parent).  The last location reached need not exist. *)
Fixpoint resolve (fs : node) (cur : loc) (comps : list string) : result loc :=
  match comps with
  | [] => Ok cur
  | c :: rest =>
      match get fs cur with
      | Some (Dir _) =>
          resolve fs (if String.eqb c ".." then removelast cur else cur ++ [c]) rest
      | Some (File _) => Err ENOTDIR
      | None => Err ENOENT
      end
  end.

(** [stat(2)] *)
Definition stat (fs : node) (p : PurePath.t) : result (loc * node) :=
  match resolve fs [] (PurePath.parts p) with
  | Ok q => match get fs q with Some n => Ok (q, n) | None => Err ENOENT end
  | Err e => Err e
  end.

(** [mkdir(2)] *)
Definition mkdir (fs : node) (p : PurePath.t) : result node :=
  match resolve fs [] (PurePath.parts p) with
  | Ok q => match get fs q with
            | Some _ => Err EEXIST
            | None => Ok (put fs q (Dir ∅))
            end
  | Err e => Err e
  end.

(** [open(p).read()] *)
Definition read (fs : node) (p : PurePath.t) : result string :=
  match stat fs p with
  | Ok (_, File d) => Ok d
  | Ok (_, Dir _) => Err EISDIR
  | Err e => Err e
  end.

(** [os.listdir] *)
Definition listdir (fs : node) (p : PurePath.t) : result (list string) :=
  match stat fs p with
  | Ok (_, Dir ch) => Ok (fst <$> map_to_list ch)
  | Ok (_, File _) => Err ENOTDIR
  | Err e => Err e
  end.

(** The last component names an entry: it is neither missing (the root)
    nor [".."]. *)
Definition last_is_name (p : PurePath.t) : bool :=
  match List.last (PurePath.parts p) ".." with
  | s => negb (String.eqb s "..")
  end.

Fixpoint is_prefix (a b : loc) : bool :=
  match a, b with
  | [], _ => true
  | x :: a', y :: b' => String.eqb x y && is_prefix a' b'
  | _ :: _, [] => false
  end.

Definition same_loc (a b : loc) : bool := is_prefix a b && is_prefix b a.

Definition is_empty_dir (ch : gmap string node) : bool :=
  match map_to_list ch with [] => true | _ => false end.

(** [rename(2)]: the source must exist; a directory cannot be moved below
    itself; an existing target is replaced only by an entry of its kind,
    and only when it is an empty directory or a file. *)
Definition rename (fs : node) (src dst : PurePath.t) : result node :=
  if negb (last_is_name src && last_is_name dst) then Err EBUSY else
  match stat fs src, resolve fs [] (PurePath.parts dst) with
  | Err e, _ => Err e
  | _, Err e => Err e
  | Ok (q1, n1), Ok q2 =>
      if same_loc q1 q2 then Ok fs
      else if is_prefix q1 q2 then Err EINVAL
      else if is_prefix q2 q1 then Err ENOTEMPTY
      else match n1, get fs q2 with
           | _, None => Ok (put (remove fs q1) q2 n1)
           | File _, Some (File _) => Ok (put (remove fs q1) q2 n1)
           | File _, Some (Dir _) => Err EISDIR
           | Dir _, Some (File _) => Err ENOTDIR
           | Dir _, Some (Dir ch) =>
               if is_empty_dir ch then Ok (put (remove fs q1) q2 n1)
               else Err ENOTEMPTY
           end
  end.

(** [shutil.rmtree] with its default error handling: a missing path or a
    regular file raises; a directory is emptied and then removed, and the
    final [rmdir] fails on the root and on a path ending in [".."]. *)
Definition rmtree (fs : node) (p : PurePath.t) : option errno * node :=
  match stat fs p with
  | Err e => (Some e, fs)
  | Ok (_, File _) => (Some ENOTDIR, fs)
  | Ok (q, Dir _) =>
      if last_is_name p then (None, remove fs q)
      else (Some EBUSY, put fs q (Dir ∅))
  end.

End FS.

(** ** Exceptions, the world, and the monad of the Python code *)

Module Py.

(** An [OSError] of the file system with its file names, or any other
    exception with its class and its text. *)
Inductive exn :=
| OSError (code : FS.errno) (filename : string) (filename2 : option string)
| Exception (class text : string).

Definition errno_number (e : FS.errno) : Z :=
  match e with
  | FS.ENOENT => 2 | FS.ENOTDIR => 20 | FS.EISDIR => 21 | FS.EEXIST => 17
  | FS.EINVAL => 22 | FS.ENOTEMPTY => 39 | FS.EBUSY => 16
  end.

Definition strerror (e : FS.errno) : string :=
  match e with
  | FS.ENOENT => "No such file or directory"
  | FS.ENOTDIR => "Not a directory"
  | FS.EISDIR => "Is a directory"
  | FS.EEXIST => "File exists"
  | FS.EINVAL => "Invalid argument"
  | FS.ENOTEMPTY => "Directory not empty"
  | FS.EBUSY => "Device or resource busy"
  end.

(** [str(e)]; file names are quoted as they are. *)
Definition str (e : exn) : string :=
  match e with
  | OSError code f f2 =>
      "[Errno " +:+ PyStr.of_int (errno_number code) +:+ "] " +:+ strerror code
      +:+ ": '" +:+ f +:+ "'"
      +:+ match f2 with Some g => " -> '" +:+ g +:+ "'" | None => "" end
  | Exception _ text => text
  end.

Inductive outcome (A : Type) :=
| Ret (a : A)
| Raise (e : exn).
Arguments Ret {A} a.
Arguments Raise {A} e.

(** [subprocess.CompletedProcess] with captured text output *)
Record CompletedProcess := {
  returncode : Z;
  stdout : string;
  stderr : string
}.

(** The fields of an [x509.Certificate] that the console reads; times are
    points on the clock's scale. *)
Record Certificate := {
  not_valid_before_utc : Z;
  not_valid_after_utc : Z;
  serial_number : Z
}.

(** What the console runs on: its configuration from the environment, the
    [step] client with the CA service behind it, the X.509 parser and the
    date formatter.  The client sees the argument vector and the value
    given to [STEPPATH]; it may change the file system and the CA state,
    and the call may fail to start. *)
Class Platform := {
  remote : Type;
  STEP_CA_URL : string;
  STEP_CA_ROOT : string;
  subprocess_run :
    list string → string → FS.node → remote →
    outcome CompletedProcess * FS.node * remote;
  load_pem_x509_certificate : string → outcome Certificate;
  strftime_minute : Z → string
}.

Record world `{Platform} := mk_world {
  files : FS.node;
  ca : remote;
  clock : Z;
  calls : list (list string)
}.

Definition M `{Platform} (A : Type) : Type := world → outcome A * world.

Section Monad.
Context `{Platform}.

Definition ret {A} (a : A) : M A := λ w, (Ret a, w).

Definition raise {A} (e : exn) : M A := λ w, (Raise e, w).

Definition bind {A B} (m : M A) (k : A → M B) : M B :=
  λ w, match m w with
       | (Ret a, w') => k a w'
       | (Raise e, w') => (Raise e, w')
       end.

(** [try: body / except Exception as e: handler] *)
Definition try_except {A} (body : M A) (handler : exn → M A) : M A :=
  λ w, match body w with
       | (Ret a, w') => (Ret a, w')
       | (Raise e, w') => handler e w'
       end.

(** [for x in l: acc = body(acc, x)] *)
Fixpoint for_each {A S} (l : list A) (acc : S) (body : S → A → M S) : M S :=
  match l with
  | [] => ret acc
  | x :: rest => bind (body acc x) (λ acc', for_each rest acc' body)
  end.

Definition get_files : M FS.node := λ w, (Ret (files w), w).

Definition set_files (fs : FS.node) : M unit :=
  λ w, (Ret tt, mk_world _ fs (ca w) (clock w) (calls w)).

(** [datetime.now(tz)] *)
Definition datetime_now : M Z := λ w, (Ret (clock w), w).

Definition lift {A} (o : outcome A) : M A := λ w, (o, w).
End Monad.

End Py.

Import Py.

#[global] Instance M_ret `{Platform} : MRet M := @Py.ret _.
#[global] Instance M_bind `{Platform} : MBind M := λ A B k m, Py.bind m k.

(** ** pathlib and shutil calls on the world *)

Module Path.
Section Calls.
Context `{Platform}.

Definition os_error (code : FS.errno) (p : PurePath.t) : exn :=
  OSError code (PurePath.str p) None.

Definition stat_is_dir (fs : FS.node) (p : PurePath.t) : bool :=
  match FS.stat fs p with FS.Ok (_, FS.Dir _) => true | _ => false end.

Definition stat_exists (fs : FS.node) (p : PurePath.t) : bool :=
  match FS.stat fs p with FS.Ok _ => true | _ => false end.

(** [p.exists()] *)
Definition exists_ (p : PurePath.t) : M bool :=
  fs ← get_files; ret (stat_exists fs p).

(** [p.is_dir()] *)
Definition is_dir (p : PurePath.t) : M bool :=
  fs ← get_files; ret (stat_is_dir fs p).

(** [p.mkdir(exist_ok=True)]: an existing directory is accepted. *)
Definition mkdir_exist_ok (fs : FS.node) (p : PurePath.t) : option exn * FS.node :=
  match FS.mkdir fs p with
  | FS.Ok fs' => (None, fs')
  | FS.Err FS.ENOENT => (Some (os_error FS.ENOENT p), fs)
  | FS.Err code =>
      if stat_is_dir fs p then (None, fs) else (Some (os_error code p), fs)
  end.

(** [p.mkdir(parents=True, exist_ok=True)] as pathlib does it: try the
    directory itself and, when a parent is missing, make the parent the
    same way and try again.  The path is given by its root and its
    components in reverse. *)
Fixpoint mkdir_from (root : string) (rparts : list string) (fs : FS.node)
  : option exn * FS.node :=
  let p := PurePath.mk root (rev rparts) in
  match FS.mkdir fs p with
  | FS.Ok fs' => (None, fs')
  | FS.Err FS.ENOENT =>
      match rparts with
      | [] => (Some (os_error FS.ENOENT p), fs)
      | _ :: up =>
          match mkdir_from root up fs with
          | (Some e, fs1) => (Some e, fs1)
          | (None, fs1) => mkdir_exist_ok fs1 p
          end
      end
  | FS.Err code =>
      if stat_is_dir fs p then (None, fs) else (Some (os_error code p), fs)
  end.

Definition mkdir_parents (p : PurePath.t) : M unit :=
  fs ← get_files;
  match mkdir_from (PurePath.root p) (rev (PurePath.parts p)) fs with
  | (None, fs') => set_files fs'
  | (Some e, fs') => set_files fs' ;; raise e
  end.

(** [p.iterdir()]: the children of [p], each under the name the
    directory gives it. *)
Definition iterdir (p : PurePath.t) : M (list PurePath.t) :=
  fs ← get_files;
  match FS.listdir fs p with
  | FS.Ok names =>
      ret ((λ n, PurePath.mk (PurePath.root p) (PurePath.parts p ++ [n])) <$> names)
  | FS.Err code => raise (os_error code p)
  end.

(** [with open(p) as f: f.read()] *)
Definition read (p : PurePath.t) : M string :=
  fs ← get_files;
  match FS.read fs p with
  | FS.Ok d => ret d
  | FS.Err code => raise (os_error code p)
  end.

(** [src.rename(dst)] *)
Definition rename (src dst : PurePath.t) : M unit :=
  fs ← get_files;
  match FS.rename fs src dst with
  | FS.Ok fs' => set_files fs'
  | FS.Err code =>
      raise (OSError code (PurePath.str src) (Some (PurePath.str dst)))
  end.

(** [shutil.rmtree(p)] *)
Definition rmtree (p : PurePath.t) : M unit :=
  fs ← get_files;
  match FS.rmtree fs p with
  | (None, fs') => set_files fs'
  | (Some code, fs') => set_files fs' ;; raise (os_error code p)
  end.
End Calls.
End Path.

(** ** streamlit/app.py *)

(** Configuration constants of the module (lines 17-23); [STEP_CA_URL] and
    [STEP_CA_ROOT] come from the environment and are fields of [Platform]. *)
Definition CA_BUNDLE : string := "/home/step/certs/ca-bundle.crt".
Definition CERTS_DIR : PurePath.t := PurePath.parse "/app/certs".
Definition PROVISIONER_PASSWORD_FILE : string := "/home/step/secrets/password".

(** One row of the certificate listing (a dict with these five keys). *)
Record cert_row := {
  row_cn : string;
  row_issued : string;
  row_expires : string;
  row_serial : string;
  row_status : string
}.

(** [sorted(certs, key=lambda x: x["cn"])]: stable, by code points. *)
Fixpoint insert_by_cn (x : cert_row) (l : list cert_row) : list cert_row :=
  match l with
  | [] => [x]
  | y :: l' =>
      if String.leb (row_cn x) (row_cn y) then x :: y :: l'
      else y :: insert_by_cn x l'
  end.

Definition sorted_by_cn (l : list cert_row) : list cert_row :=
  foldr insert_by_cn [] l.

Section App.
Context `{Platform}.

(** [run_step_command(args)] (lines 37-49): prepend the program name, run it with
    [STEPPATH] set, and hand back the completed process.  Every
    invocation is logged in [calls]. *)
Definition run_step_command (args : list string) : M CompletedProcess :=
  λ w,
    let cmd := "step" :: args in
    let '(result, fs', ca') := subprocess_run cmd "/home/step" (files w) (ca w) in
    (result, mk_world _ fs' ca' (clock w) (calls w ++ [cmd])).

Definition health_args : list string :=
  ["ca"; "health"; "--ca-url"; STEP_CA_URL; "--root"; STEP_CA_ROOT].

(** [get_ca_health()] (lines 52-65) *)
Definition get_ca_health : M (gmap string string) :=
  try_except
    (result ← run_step_command health_args;
     if returncode result =? 0
     then mret {[ "status" := "healthy"; "message" := "CA is running" ]}
     else mret {[ "status" := "unhealthy"; "message" := stderr result ]})
    (λ e, mret {[ "status" := "error"; "message" := Py.str e ]}).

(** The arguments built before the SAN loop of [issue_certificate]. *)
Definition certificate_args (common_name : string) (validity_days : Z) : list string :=
  let cert_dir := CERTS_DIR /: common_name in
  let cert_file := cert_dir /: (common_name +:+ ".crt") in
  let key_file := cert_dir /: (common_name +:+ ".key") in
  [ "ca"; "certificate";
    common_name;
    PurePath.str cert_file;
    PurePath.str key_file;
    "--ca-url"; STEP_CA_URL;
    "--root"; STEP_CA_ROOT;
    "--not-after"; PyStr.of_int (validity_days * 24) +:+ "h";
    "--provisioner"; "iot-devices";
    "--provisioner-password-file"; PROVISIONER_PASSWORD_FILE;
    "--force" ].

(** The SAN loop: [cmd.extend(["--san", san.strip()])] for each entry
    whose stripped text is not empty.  [None] and the empty list are both
    falsy and add nothing. *)
Definition extend_sans (cmd : list string) (sans : option (list string)) : list string :=
  match sans with
  | Some ((_ :: _) as l) =>
      fold_left
        (λ cmd san,
           if PyStr.truthy (PyStr.strip san)
           then cmd ++ ["--san"; PyStr.strip san]
           else cmd)
        l cmd
  | _ => cmd
  end.

(** [issue_certificate(common_name, cert_type, validity_days, sans)]
    (lines 91-143) *)
Definition issue_certificate
    (common_name : string) (cert_type : string) (validity_days : Z)
    (sans : option (list string))
  : M (bool * string * gmap string string) :=
  let cert_dir := CERTS_DIR /: common_name in
  Path.mkdir_parents cert_dir;;
  let cert_file := cert_dir /: (common_name +:+ ".crt") in
  let key_file := cert_dir /: (common_name +:+ ".key") in
  let cmd := extend_sans (certificate_args common_name validity_days) sans in
  result ← run_step_command cmd;
  if returncode result =? 0 then
    try_except
      (let files : gmap string string := ∅ in
       cert ← Path.read cert_file;
       let files := <["cert" := cert]> files in
       key ← Path.read key_file;
       let files := <["key" := key]> files in
       bundle ← Path.read (PurePath.parse CA_BUNDLE);
       let files := <["ca" := bundle]> files in
       mret (true, "Certificate issued successfully", files))
      (λ e, mret (false, "Error reading files: " +:+ Py.str e, ∅))
  else
    mret (false, "Error: " +:+ stderr result, ∅).

(** The row built from a parsed certificate. *)
Definition row_of_certificate (name : string) (cert : Certificate) (now : Z) : cert_row :=
  {| row_cn := name;
     row_issued := strftime_minute (not_valid_before_utc cert);
     row_expires := strftime_minute (not_valid_after_utc cert);
     row_serial := PyStr.of_int (serial_number cert);
     row_status := if now <? not_valid_after_utc cert then "Active" else "Expired" |}.

(** The row built when reading or parsing raised. *)
Definition row_of_error (name : string) (e : exn) : cert_row :=
  {| row_cn := name;
     row_issued := "Unknown";
     row_expires := "Unknown";
     row_serial := "Unknown";
     row_status := "Error: " +:+ Py.str e |}.

(** The body of the loop of [list_certificates]. *)
Definition list_step (certs : list cert_row) (cert_dir : PurePath.t) : M (list cert_row) :=
  d ← Path.is_dir cert_dir;
  if d : bool then
    let cert_file := cert_dir /: (PurePath.name cert_dir +:+ ".crt") in
    present ← Path.exists_ cert_file;
    if present : bool then
      try_except
        (cert_data ← Path.read cert_file;
         cert ← lift (load_pem_x509_certificate cert_data);
         now ← datetime_now;
         mret (certs ++ [row_of_certificate (PurePath.name cert_dir) cert now]))
        (λ e, mret (certs ++ [row_of_error (PurePath.name cert_dir) e]))
    else mret certs
  else mret certs.

(** [list_certificates()] (lines 146-175) *)
Definition list_certificates : M (list cert_row) :=
  dirs ← Path.iterdir CERTS_DIR;
  certs ← for_each dirs [] list_step;
  mret (sorted_by_cn certs).

Definition token_args (serial : string) : list string :=
  [ "ca"; "token";
    serial;
    "--revoke";
    "--ca-url"; STEP_CA_URL;
    "--root"; STEP_CA_ROOT;
    "--provisioner"; "iot-devices";
    "--provisioner-password-file"; PROVISIONER_PASSWORD_FILE ].

Definition revoke_args (serial token : string) : list string :=
  [ "ca"; "revoke";
    serial;
    "--ca-url"; STEP_CA_URL;
    "--root"; STEP_CA_ROOT;
    "--token"; token ].

(** [revoke_certificate(common_name, serial)] (lines 178-232) *)
Definition revoke_certificate (common_name serial : string) : M (bool * string) :=
  let cert_file := CERTS_DIR /: common_name /: (common_name +:+ ".crt") in
  present ← Path.exists_ cert_file;
  if negb present then mret (false, "Certificate file not found") else
  token_result ← run_step_command (token_args serial);
  if negb (returncode token_result =? 0) then
    mret (false, "Failed to generate revocation token: " +:+ stderr token_result)
  else
  let token := PyStr.strip (stdout token_result) in
  result ← run_step_command (revoke_args serial token);
  let already_revoked := PyStr.contains "already revoked" (PyStr.lower (stderr result)) in
  if (returncode result =? 0) || already_revoked then
    let revoked_dir := CERTS_DIR /: (common_name +:+ ".revoked") in
    stale ← Path.exists_ revoked_dir;
    (if stale : bool then Path.rmtree revoked_dir else mret tt);;
    try_except
      (Path.rename (CERTS_DIR /: common_name) revoked_dir)
      (λ _, mret tt);;
    if already_revoked
    then mret (true, "Certificate was already revoked. Cleaned up local files.")
    else mret (true, "Certificate revoked successfully")
  else
    mret (false, "Error: " +:+ stderr result).

(** The part of [revoke_certificate] that marks the directory (lines
    219-227): remove a stale target, try the rename, ignore its failure. *)
Definition mark_revoked (common_name : string) : M unit :=
  let revoked_dir := CERTS_DIR /: (common_name +:+ ".revoked") in
  stale ← Path.exists_ revoked_dir;
  (if stale : bool then Path.rmtree revoked_dir else mret tt);;
  try_except
    (Path.rename (CERTS_DIR /: common_name) revoked_dir)
    (λ _, mret tt).

End App.

(** ** A small platform to run the console on

    The client of this platform behaves like [step] in the ways the console
    relies on: [ca certificate] writes the certificate and the key to the
    two paths it is given, [ca token] prints a token followed by a newline,
    [ca revoke] refuses a serial that is already revoked.  The CA state is
    the list of revoked serials. *)

Module Sim.

Definition write_file (fs : FS.node) (path data : string) : option FS.node :=
  match FS.resolve fs [] (PurePath.parts (PurePath.parse path)) with
  | FS.Ok q =>
      match FS.get fs q with
      | Some (FS.Dir _) => None
      | _ => Some (FS.put fs q (FS.File data))
      end
  | FS.Err _ => None
  end.

Definition completed (rc : Z) (out err : string) : outcome CompletedProcess :=
  Ret {| returncode := rc; stdout := out; stderr := err |}.

Definition step (cmd : list string) (steppath : string) (fs : FS.node)
    (revoked : list string) : outcome CompletedProcess * FS.node * list string :=
  match cmd with
  | "step" :: "ca" :: "health" :: _ => (completed 0 "ok" "", fs, revoked)
  | "step" :: "ca" :: "certificate" :: cn :: crt :: key :: _ =>
      match write_file fs crt ("CERT " +:+ cn) with
      | Some fs1 =>
          match write_file fs1 key ("KEY " +:+ cn) with
          | Some fs2 => (completed 0 "" "", fs2, revoked)
          | None => (completed 1 "" "cannot write key", fs, revoked)
          end
      | None => (completed 1 "" "cannot write certificate", fs, revoked)
      end
  | "step" :: "ca" :: "token" :: serial :: _ =>
      (completed 0 ("token-" +:+ serial +:+ String "010" "") "", fs, revoked)
  | "step" :: "ca" :: "revoke" :: serial :: _ =>
      if bool_decide (serial ∈ revoked)
      then (completed 1 "" "error: certificate is Already Revoked", fs, revoked)
      else (completed 0 "" "", fs, serial :: revoked)
  | _ => (completed 2 "" "unknown command", fs, revoked)
  end.

Definition load (data : string) : outcome Certificate :=
  if PyStr.startswith "CERT " data
  then Ret {| not_valid_before_utc := 100; not_valid_after_utc := 200; serial_number := 42 |}
  else Raise (Exception "ValueError" "Unable to load PEM file").

Definition platform : Platform := {|
  remote := list string;
  STEP_CA_URL := "https://step-ca:9000";
  STEP_CA_ROOT := "/home/step/certs/root_ca.crt";
  subprocess_run := step;
  load_pem_x509_certificate := load;
  strftime_minute := PyStr.of_int
|}.

(** A host without the [step] program: starting it raises. *)
Definition no_client : Platform := {|
  remote := unit;
  STEP_CA_URL := "https://step-ca:9000";
  STEP_CA_ROOT := "/home/step/certs/root_ca.crt";
  subprocess_run := λ _ _ fs r,
    (Raise (OSError FS.ENOENT "step" None), fs, r);
  load_pem_x509_certificate := load;
  strftime_minute := PyStr.of_int
|}.

(** A CA that is down: every command exits with code 1. *)
Definition ca_down : Platform := {|
  remote := unit;
  STEP_CA_URL := "https://step-ca:9000";
  STEP_CA_ROOT := "/home/step/certs/root_ca.crt";
  subprocess_run := λ _ _ fs r, (completed 1 "" "connection refused", fs, r);
  load_pem_x509_certificate := load;
  strftime_minute := PyStr.of_int
|}.

Definition dir (l : list (string * FS.node)) : FS.node := FS.Dir (list_to_map l).

(** The file system of a fresh deployment: the CA bundle is in place and
    the certificate directory is empty. *)
Definition fs0 : FS.node :=
  dir [ ("app", dir [ ("certs", dir []) ]);
        ("home", dir [ ("step", dir [ ("certs", dir [ ("ca-bundle.crt", FS.File "BUNDLE") ]) ]) ]) ].

Definition w0 : @world platform := mk_world platform fs0 [] 150 [].

End Sim.

(** ** Names that are a single path component *)

Fixpoint no_slash (s : string) : bool :=
  match s with
  | EmptyString => true
  | String c s' => negb (Ascii.eqb c "/") && no_slash s'
  end.

(** A plain name is what a directory entry can be called: not empty, free
    of ["/"], and neither ["."] nor [".."]. *)
Definition plain (s : string) : bool :=
  no_slash s && negb (String.eqb s "") && negb (String.eqb s ".")
  && negb (String.eqb s "..").

(** The child of [p] under the name [n], as [iterdir] builds it. *)
Definition child (p : PurePath.t) (n : string) : PurePath.t :=
  PurePath.mk (PurePath.root p) (PurePath.parts p ++ [n]).

(** Components that all name an entry below: none is [".."]. *)
Definition no_dotdot (comps : list string) : Prop := Forall (λ c, c ≠ "..") comps.

(** The location of [CERTS_DIR] in the tree. *)
Definition certs_loc : FS.loc := ["app"; "certs"].

(** ** The claims of the specification, as they are worded *)

Module Spec.

(** The command of the specification for [issue_certificate]: the fixed
    arguments, then one [--san s] pair for each entry [s] that is not
    blank, the entry itself being passed. *)
Definition certificate_command `{Platform}
    (cn : string) (validity_days : Z) (sans : list string) : list string :=
  [ "step"; "ca"; "certificate"; cn;
    PurePath.str (CERTS_DIR /: cn /: (cn +:+ ".crt"));
    PurePath.str (CERTS_DIR /: cn /: (cn +:+ ".key"));
    "--ca-url"; STEP_CA_URL;
    "--root"; STEP_CA_ROOT;
    "--not-after"; PyStr.of_int (validity_days * 24) +:+ "h";
    "--provisioner"; "iot-devices";
    "--provisioner-password-file"; PROVISIONER_PASSWORD_FILE;
    "--force" ]
  ++ flat_map (λ s, ["--san"; s])
       (List.filter (λ s, PyStr.truthy (PyStr.strip s)) sans).





Definition revoked `{Platform} (w : world) (cn : string) : bool :=
  Path.stat_is_dir (files w) (CERTS_DIR /: (cn +:+ ".revoked")).


End Spec.



(** Where a row of the listing comes from: a directory of [CERTS_DIR] that
    holds an entry called like the directory with [.crt] appended. *)
Definition row_source `{Platform} (fs : FS.node) (r : cert_row) : Prop :=
  Path.stat_is_dir fs (child CERTS_DIR (row_cn r)) = true
  ∧ Path.stat_exists fs
      (child CERTS_DIR (row_cn r) /: (row_cn r +:+ ".crt")) = true.

(** The commands run between two worlds. *)
Definition invoked `{Platform} (before after : world) : list (list string) :=
  drop (List.length (calls before)) (calls after).

(** ** Worlds reached on the small platform *)

Module Scenario.

Definition issue (cn : string) (w : @world Sim.platform) : @world Sim.platform :=
  (@issue_certificate Sim.platform cn "Client" 30 None w).2.

Definition revoke (cn serial : string) (w : @world Sim.platform) : @world Sim.platform :=
  (@revoke_certificate Sim.platform cn serial w).2.

(** ["site"] has been issued. *)
Definition w_site : @world Sim.platform := issue "site" Sim.w0.



(** ["site"] and ["other"] have been issued. *)
Definition w_two : @world Sim.platform := issue "other" w_site.

(** ["site"] and ["other"] have been issued, ["site"] has been revoked. *)
Definition w_two_revoked : @world Sim.platform := revoke "site" "42" w_two.



End Scenario.

(** ** The rest of app.py: the other helpers and the pages that call them *)

(** More Python text: [str.replace(c, "")], [str.isalnum], [str.split]. *)
Module Text.

(** [s.replace(c, "")] for a one-character [c]: every occurrence goes. *)
Fixpoint remove_char (c : ascii) (s : string) : string :=
  match s with
  | EmptyString => EmptyString
  | String a s' => if Ascii.eqb a c then remove_char c s' else String a (remove_char c s')
  end.

Definition between (lo hi n : nat) : bool := (lo <=? n)%nat && (n <=? hi)%nat.

(** [c.isalnum()] on code points below 256: the ASCII digits and letters,
    the ordinal indicators, the superscript digits, the micro sign, the
    vulgar fractions and the accented letters. *)
Definition isalnum_char (c : ascii) : bool :=
  let n := nat_of_ascii c in
  between 48 57 n || between 65 90 n || between 97 122 n
  || between 170 170 n || between 178 179 n || between 181 181 n
  || between 185 186 n || between 188 190 n || between 192 214 n
  || between 216 246 n || between 248 255 n.

Fixpoint all_alnum (s : string) : bool :=
  match s with
  | EmptyString => true
  | String a s' => isalnum_char a && all_alnum s'
  end.

(** [s.isalnum()]: at least one character, and all of them alphanumeric. *)
Definition isalnum (s : string) : bool := PyStr.truthy s && all_alnum s.

(** [s.split(sep)] for a one-character separator. *)
Fixpoint split (sep : ascii) (s : string) : list string :=
  match s with
  | EmptyString => [EmptyString]
  | String c s' =>
      if Ascii.eqb c sep then EmptyString :: split sep s'
      else match split sep s' with
           | h :: t => String c h :: t
           | [] => [String c EmptyString]
           end
  end.

End Text.

(** What a submission of the issue form shows. *)
Inductive form_result :=
| Rejected (error : string)
| Issued (message : string) (files : gmap string string)
| Failed (message : string).

Section Pages.
Context `{Platform}.


(** [get_ca_fingerprint()] (lines 68-79) *)
Definition get_ca_fingerprint : M string :=
  try_except
    (result ← run_step_command ["certificate"; "fingerprint"; STEP_CA_ROOT];
     if returncode result =? 0
     then mret (PyStr.strip (stdout result))
     else mret "Unable to get fingerprint")
    (λ e, mret ("Error: " +:+ Py.str e)).


(** The check of the issue form on the common name (line 363). *)
Definition name_is_alnum (common_name : string) : bool :=
  Text.isalnum
    (Text.remove_char "." (Text.remove_char "_" (Text.remove_char "-" common_name))).

(** The SAN list the issue form builds (lines 367-369). *)
Definition form_sans (cert_type sans_input : string) : list string :=
  if String.eqb cert_type "Server" && PyStr.truthy sans_input
  then PyStr.strip <$> Text.split "," sans_input
  else [].

(** The submission of the issue form (lines 360-383).  What the page shows
    is the value returned; the ZIP bundle is made afterwards from the files
    of an [Issued] result and kept in the session. *)
Definition issue_form_submit
    (common_name cert_type : string) (validity : Z) (sans_input : string)
  : M form_result :=
  if negb (PyStr.truthy common_name) then
    mret (Rejected "Please enter a site/device name")
  else if negb (name_is_alnum common_name) then
    mret (Rejected "Name should only contain letters, numbers, hyphens, underscores, and dots")
  else
    let sans := form_sans cert_type sans_input in
    r ← issue_certificate common_name cert_type validity (Some sans);
    let '(success, message, files) := r in
    if success : bool then mret (Issued message files)
    else mret (Failed message).

(** [[c for c in certs if c["status"] == "Active"]] (lines 291, 452) *)
Definition active_certs (certs : list cert_row) : list cert_row :=
  List.filter (λ c, String.eqb (row_status c) "Active") certs.

(** [{c["cn"]: c for c in active_certs}] (line 455): a later row replaces
    an earlier one of the same name. *)
Definition cert_options (active : list cert_row) : gmap string cert_row :=
  fold_left (λ m c, <[row_cn c := c]> m) active ∅.

(** A click on the revoke button with [selected_cn] chosen (lines 451-475):
    nothing happens without active certificates or without a choice;
    looking up a name that is no option raises [KeyError]. *)
Definition revoke_page_click (selected_cn : string) : M (option (bool * string)) :=
  certs ← list_certificates;
  let active := active_certs certs in
  match active with
  | [] => mret None
  | _ :: _ =>
      let options := cert_options active in
      if PyStr.truthy selected_cn then
        match options !! selected_cn with
        | Some cert =>
            r ← revoke_certificate selected_cn (row_serial cert);
            mret (Some r)
        | None => raise (Exception "KeyError" ("'" +:+ selected_cn +:+ "'"))
        end
      else mret None
  end.

End Pages.

(** The row that [list_certificates] makes for the entry [name] of
    [CERTS_DIR], if it makes one: the body of its loop as a function of the
    file system and of the clock. *)
Definition listed_row `{Platform} (fs : FS.node) (now : Z) (name : string)
  : option cert_row :=
  let cert_dir := child CERTS_DIR name in
  let cert_file := cert_dir /: (name +:+ ".crt") in
  if Path.stat_is_dir fs cert_dir && Path.stat_exists fs cert_file then
    Some match FS.read fs cert_file with
         | FS.Ok cert_data =>
             match load_pem_x509_certificate cert_data with
             | Ret cert => row_of_certificate name cert now
             | Raise e => row_of_error name e
             end
         | FS.Err code => row_of_error name (Path.os_error code cert_file)
         end
  else None.

(** A CA that hands out tokens and refuses every revocation. *)
Definition revocation_denied : Platform := {|
  remote := unit;
  STEP_CA_URL := "https://step-ca:9000";
  STEP_CA_ROOT := "/home/step/certs/root_ca.crt";
  subprocess_run := λ cmd _ fs r,
    match cmd with
    | "step" :: "ca" :: "token" :: _ => (Sim.completed 0 "token" "", fs, r)
    | _ => (Sim.completed 1 "" "error: unauthorized", fs, r)
    end;
  load_pem_x509_certificate := Sim.load;
  strftime_minute := PyStr.of_int
|}.

(** The entries of [CERTS_DIR] have names a file system gives: single path
    components. *)
Definition plain_entries (fs : FS.node) : Prop :=
  ∀ ch name, FS.get fs certs_loc = Some (FS.Dir ch) → is_Some (ch !! name) →
             plain name = true.

(** The rows are in the order of [sorted]: each name is at most the next. *)
Definition sorted_rows (l : list cert_row) : Prop :=
  Sorted (λ a b, String.leb (row_cn a) (row_cn b) = true) l.

(** * Properties *)

#[local] Arguments Ascii.eqb : simpl never.
#[local] Arguments String.eqb : simpl never.

(** ** Text and names *)

Section Names.

Lemma length_append s t :
  String.length (s +:+ t) = (String.length s + String.length t)%nat.
Proof. induction s as [|c s IH]; simpl; [done | by rewrite IH]. Qed.

Lemma no_slash_app s t : no_slash (s +:+ t) = no_slash s && no_slash t.
Proof.
  induction s as [|c s IH]; simpl; [done|].
  rewrite IH. by destruct (Ascii.eqb c "/").
Qed.

Lemma split_no_slash s : no_slash s = true → PyStr.split_slash s = [s].
Proof.
  induction s as [|c s IH]; simpl; [done|].
  destruct (Ascii.eqb c "/"); simpl; [done|].
  intros Hs. by rewrite IH.
Qed.

Lemma startswith_no_slash s : no_slash s = true → PyStr.startswith "/" s = false.
Proof.
  destruct s as [|c s]; simpl; [done|].
  rewrite (Ascii.eqb_sym "/" c). by destruct (Ascii.eqb c "/").
Qed.

Lemma components_no_slash s :
  no_slash s = true → s ≠ "" → s ≠ "." → PurePath.components s = [s].
Proof.
  intros Hs H1 H2. unfold PurePath.components. rewrite split_no_slash by done.
  simpl. unfold PurePath.kept.
  apply String.eqb_neq in H1, H2. by rewrite H1, H2.
Qed.

Lemma plain_no_slash s : plain s = true → no_slash s = true.
Proof. unfold plain. rewrite !andb_true_iff. tauto. Qed.

Lemma plain_not_dotdot s : plain s = true → s ≠ "..".
Proof.
  unfold plain. rewrite !andb_true_iff, !negb_true_iff.
  intros (_ & H). by apply String.eqb_neq.
Qed.

Lemma components_plain s : plain s = true → PurePath.components s = [s].
Proof.
  intros Hp. pose proof Hp as Hq. unfold plain in Hq.
  rewrite !andb_true_iff, !negb_true_iff in Hq.
  destruct Hq as (((Hs & H1) & H2) & _).
  apply components_no_slash; [done | by apply String.eqb_neq ..].
Qed.

(** A name with a suffix of two characters or more is a component of its
    own as soon as it has no slash. *)
Lemma suffixed_long s t (x : string) :
  (2 ≤ String.length t)%nat → (String.length x ≤ 2)%nat →
  (String.length t ≠ 2)%nat ∨ (String.length s ≠ 0)%nat → s +:+ t ≠ x.
Proof.
  intros Ht Hx Hor Heq. apply (f_equal String.length) in Heq.
  rewrite length_append in Heq. lia.
Qed.

Lemma components_suffixed s t :
  no_slash s = true → no_slash t = true → (3 ≤ String.length t)%nat →
  PurePath.components (s +:+ t) = [s +:+ t].
Proof.
  intros Hs Ht Hl. apply components_no_slash.
  - by rewrite no_slash_app, Hs, Ht.
  - apply suffixed_long; simpl; lia.
  - apply suffixed_long; simpl; lia.
Qed.


Lemma suffixed_not_dotdot s t : (3 ≤ String.length t)%nat → s +:+ t ≠ "..".
Proof. intros Ht. apply suffixed_long; simpl; lia. Qed.

(** The paths of the console for a plain common name. *)
Lemma cert_dir_plain cn :
  plain cn = true → CERTS_DIR /: cn = PurePath.mk "/" (certs_loc ++ [cn]).
Proof.
  intros Hp. unfold PurePath.join.
  rewrite startswith_no_slash by by apply plain_no_slash.
  by rewrite components_plain.
Qed.


Lemma inner_path_plain cn t :
  plain cn = true → no_slash t = true → (3 ≤ String.length t)%nat →
  CERTS_DIR /: cn /: (cn +:+ t)
  = PurePath.mk "/" (certs_loc ++ [cn; cn +:+ t]).
Proof.
  intros Hp Ht Hl. rewrite cert_dir_plain by done. unfold PurePath.join.
  pose proof (plain_no_slash _ Hp) as Hs.
  rewrite startswith_no_slash by by rewrite no_slash_app, Hs, Ht.
  by rewrite components_suffixed.
Qed.

Lemma certs_dir_eq : CERTS_DIR = PurePath.mk "/" certs_loc.
Proof. reflexivity. Qed.

Lemma child_name p n : PurePath.name (child p n) = n.
Proof. unfold PurePath.name, child. cbn [PurePath.parts]. apply last_last. Qed.

Lemma child_inner_plain name t :
  no_slash name = true → no_slash t = true → (3 ≤ String.length t)%nat →
  child CERTS_DIR name /: (PurePath.name (child CERTS_DIR name) +:+ t)
  = PurePath.mk "/" (certs_loc ++ [name; name +:+ t]).
Proof.
  intros Hs Ht Hl. rewrite child_name. unfold PurePath.join.
  rewrite startswith_no_slash by by rewrite no_slash_app, Hs, Ht.
  by rewrite components_suffixed.
Qed.

End Names.

(** ** The file-system tree *)

Section Tree.
Import FS.

Implicit Types (n fs x : node) (p q d : loc) (c : string).

Lemma get_app n p q :
  get n (p ++ q) = match get n p with Some m => get m q | None => None end.
Proof.
  revert n. induction p as [|a p IH]; intros n; simpl; [done|].
  destruct n as [|ch]; [done|]. destruct (ch !! a); [apply IH | done].
Qed.

Lemma get_file_below data c q : get (File data) (c :: q) = None.
Proof. done. Qed.

(** Whatever lies below [p] lies in a directory. *)
Lemma get_below_dir n p c q x :
  get n (p ++ c :: q) = Some x → ∃ ch, get n p = Some (Dir ch).
Proof.
  rewrite get_app. destruct (get n p) as [[|ch]|]; [done | eauto | done].
Qed.

Lemma get_child n p c ch :
  get n p = Some (Dir ch) → get n (p ++ [c]) = ch !! c.
Proof.
  intros Hp. rewrite get_app, Hp. simpl. by destruct (ch !! c).
Qed.

Lemma put_cons ch a p x :
  p ≠ [] →
  put (Dir ch) (a :: p) x
  = match ch !! a with
    | Some n' => Dir (<[a := put n' p x]> ch)
    | None => Dir ch
    end.
Proof. by destruct p. Qed.


Lemma snoc_not_nil {A} (l : list A) (a : A) : l ++ [a] ≠ [].
Proof. by destruct l. Qed.


Lemma get_put_parent n d c x ch :
  get n d = Some (Dir ch) → get (put n (d ++ [c]) x) d = Some (Dir (<[c := x]> ch)).
Proof.
  revert n. induction d as [|a d IH]; intros n Hd; simpl in Hd.
  - by simplify_eq.
  - destruct n as [|ch']; [done|].
    destruct (ch' !! a) as [n'|] eqn:Ha; [|done].
    change ((a :: d) ++ [c]) with (a :: (d ++ [c])).
    rewrite put_cons by apply snoc_not_nil. rewrite Ha.
    cbn [get]. rewrite lookup_insert_eq. by apply IH.
Qed.





(** *** Resolution of paths without [".."] *)

Lemma resolve_no_dotdot fs cur comps q :
  no_dotdot comps → resolve fs cur comps = Ok q → q = cur ++ comps.
Proof.
  intros Hn. revert cur. induction Hn as [|c rest Hc _ IH]; intros cur; simpl.
  - intros [= <-]. by rewrite app_nil_r.
  - destruct (get fs cur) as [[|ch]|]; [done| |done].
    apply String.eqb_neq in Hc. rewrite Hc. intros Hr.
    apply IH in Hr. by rewrite <- app_assoc in Hr.
Qed.

(** Resolution succeeds as soon as the parent of the last component is a
    directory. *)
Lemma resolve_parent fs cur comps c ch :
  no_dotdot (comps ++ [c]) → get fs (cur ++ comps) = Some (Dir ch) →
  resolve fs cur (comps ++ [c]) = Ok (cur ++ comps ++ [c]).
Proof.
  revert cur. induction comps as [|a comps IH]; intros cur Hn Hg.
  - rewrite app_nil_r in Hg. simpl. rewrite Hg.
    apply Forall_cons in Hn as [Hc _]. apply String.eqb_neq in Hc. by rewrite Hc.
  - change ((a :: comps) ++ [c]) with (a :: (comps ++ [c])) in *.
    apply Forall_cons in Hn as [Ha Hn].
    destruct (get_below_dir fs cur a comps _ Hg) as [ch' Hcur].
    cbn [resolve]. rewrite Hcur. apply String.eqb_neq in Ha. rewrite Ha.
    rewrite (IH (cur ++ [a])); [by rewrite <- app_assoc | done |].
    by rewrite <- app_assoc.
Qed.

Lemma resolve_existing fs comps x :
  no_dotdot comps → get fs comps = Some x → resolve fs [] comps = Ok comps.
Proof.
  intros Hn Hg. destruct comps as [|a comps] using rev_ind; [done|].
  destruct (get_below_dir fs comps a [] _ Hg) as [ch Hd].
  by rewrite (resolve_parent fs [] comps a ch).
Qed.

Lemma stat_existing fs (p : PurePath.t) x :
  no_dotdot (PurePath.parts p) → get fs (PurePath.parts p) = Some x →
  stat fs p = Ok (PurePath.parts p, x).
Proof.
  intros Hn Hg. unfold stat. by rewrite (resolve_existing _ _ x), Hg.
Qed.

Lemma stat_inv fs (p : PurePath.t) q x :
  no_dotdot (PurePath.parts p) → stat fs p = Ok (q, x) →
  q = PurePath.parts p ∧ get fs (PurePath.parts p) = Some x.
Proof.
  intros Hn. unfold stat.
  destruct (resolve fs [] (PurePath.parts p)) as [q'|] eqn:Hr; [|done].
  apply resolve_no_dotdot in Hr; [|done]. simpl in Hr. subst q'.
  destruct (get fs (PurePath.parts p)); [|done]. by intros [= <- <-].
Qed.

Lemma stat_missing fs (p : PurePath.t) :
  no_dotdot (PurePath.parts p) → get fs (PurePath.parts p) = None →
  ∃ e, stat fs p = Err e.
Proof.
  intros Hn Hg. destruct (stat fs p) as [[q x]|e] eqn:Hs; [|eauto].
  apply stat_inv in Hs as [_ Hs]; [congruence | done].
Qed.

End Tree.

(** ** The calls on the world *)

Ltac unfold_monad :=
  unfold mbind, M_bind, Py.bind, mret, M_ret, Py.ret, Py.raise, Py.try_except,
    Py.get_files, Py.set_files, Py.lift, Py.datetime_now in *.

Section Calls.
Context `{Platform}.

Lemma invoked_app (w w' : world) l : calls w' = calls w ++ l → invoked w w' = l.
Proof. intros Hc. unfold invoked. rewrite Hc. apply drop_app_length. Qed.

Lemma invoked_same (w w' : world) : calls w' = calls w → invoked w w' = [].
Proof. intros Hc. apply invoked_app. by rewrite app_nil_r. Qed.

Lemma exists_run p w : Path.exists_ p w = (Ret (Path.stat_exists (files w) p), w).
Proof. done. Qed.

Lemma is_dir_run p w : Path.is_dir p w = (Ret (Path.stat_is_dir (files w) p), w).
Proof. done. Qed.

Lemma read_run p w :
  Path.read p w
  = (match FS.read (files w) p with
     | FS.Ok d => Ret d
     | FS.Err code => Raise (Path.os_error code p)
     end, w).
Proof. unfold Path.read. unfold_monad. by destruct (FS.read (files w) p). Qed.

Lemma run_step_command_run args w :
  run_step_command args w
  = ((subprocess_run ("step" :: args) "/home/step" (files w) (ca w)).1.1,
     mk_world _
       (subprocess_run ("step" :: args) "/home/step" (files w) (ca w)).1.2
       (subprocess_run ("step" :: args) "/home/step" (files w) (ca w)).2
       (clock w) (calls w ++ ["step" :: args])).
Proof.
  unfold run_step_command.
  by destruct (subprocess_run _ _ _ _) as [[r fs'] ca'].
Qed.

Lemma iterdir_run p w :
  Path.iterdir p w
  = (match FS.listdir (files w) p with
     | FS.Ok names => Ret (child p <$> names)
     | FS.Err code => Raise (Path.os_error code p)
     end, w).
Proof. unfold Path.iterdir. unfold_monad. by destruct (FS.listdir (files w) p). Qed.

Lemma rmtree_calls p w : calls (Path.rmtree p w).2 = calls w.
Proof.
  unfold Path.rmtree. unfold_monad.
  by destruct (FS.rmtree (files w) p) as [[code|] fs'].
Qed.

Lemma rename_calls src dst w : calls (Path.rename src dst w).2 = calls w.
Proof.
  unfold Path.rename. unfold_monad.
  by destruct (FS.rename (files w) src dst).
Qed.

Lemma mkdir_parents_calls p w : calls (Path.mkdir_parents p w).2 = calls w.
Proof.
  unfold Path.mkdir_parents. unfold_monad.
  by destruct (Path.mkdir_from _ _ _) as [[e|] fs'].
Qed.

Lemma mark_revoked_calls cn w : calls (mark_revoked cn w).2 = calls w.
Proof.
  unfold mark_revoked.
  unfold mbind at 1, M_bind at 1, Py.bind at 1. rewrite exists_run.
  unfold mbind, M_bind, Py.bind, try_except.
  destruct (Path.stat_exists _ _).
  - pose proof (rmtree_calls (CERTS_DIR /: (cn +:+ ".revoked")) w) as Hc.
    destruct (Path.rmtree _ w) as [[[]|e] w1]; simpl in Hc; [|done].
    pose proof (rename_calls (CERTS_DIR /: cn) (CERTS_DIR /: (cn +:+ ".revoked")) w1) as Hr.
    destruct (Path.rename _ _ w1) as [[[]|e] w2]; simpl in *; congruence.
  - unfold mret, M_ret, Py.ret.
    pose proof (rename_calls (CERTS_DIR /: cn) (CERTS_DIR /: (cn +:+ ".revoked")) w) as Hr.
    destruct (Path.rename _ _ w) as [[[]|e] w2]; simpl in *; congruence.
Qed.

(** [revoke_certificate] from the answers of the client. *)
Lemma revoke_certificate_run cn serial w :
  revoke_certificate cn serial w
  = if negb (Path.stat_exists (files w) (CERTS_DIR /: cn /: (cn +:+ ".crt")))
    then (Ret (false, "Certificate file not found"), w)
    else
      match run_step_command (token_args serial) w with
      | (Raise e, w1) => (Raise e, w1)
      | (Ret token_result, w1) =>
          if negb (returncode token_result =? 0)
          then (Ret (false, "Failed to generate revocation token: "
                            +:+ stderr token_result), w1)
          else
            match run_step_command
                    (revoke_args serial (PyStr.strip (stdout token_result))) w1 with
            | (Raise e, w2) => (Raise e, w2)
            | (Ret result, w2) =>
                let already :=
                  PyStr.contains "already revoked" (PyStr.lower (stderr result)) in
                if (returncode result =? 0) || already
                then match mark_revoked cn w2 with
                     | (Raise e, w3) => (Raise e, w3)
                     | (Ret _, w3) =>
                         (Ret (true,
                               if already
                               then "Certificate was already revoked. Cleaned up local files."
                               else "Certificate revoked successfully"), w3)
                     end
                else (Ret (false, "Error: " +:+ stderr result), w2)
            end
      end.
Proof.
  unfold revoke_certificate.
  unfold mbind at 1, M_bind at 1, Py.bind at 1. rewrite exists_run.
  destruct (negb (Path.stat_exists _ _)); [done|].
  unfold mbind at 1, M_bind at 1, Py.bind at 1.
  destruct (run_step_command (token_args serial) w) as [[tok|e] w1]; [|done].
  destruct (negb (returncode tok =? 0)); [done|].
  unfold mbind at 1, M_bind at 1, Py.bind at 1.
  destruct (run_step_command _ w1) as [[res|e] w2]; [|done].
  cbv zeta.
  destruct ((returncode res =? 0) || _) eqn:Hok; [|done].
  unfold mark_revoked. unfold_monad.
  destruct (Path.exists_ _ w2) as [[stale|e] w2']; [|done].
  destruct stale.
  - destruct (Path.rmtree _ w2') as [[[]|e] w3]; [|done].
    destruct (Path.rename _ _ w3) as [[[]|e] w4];
      by destruct (PyStr.contains _ _).
  - destruct (Path.rename _ _ w2') as [[[]|e] w4];
      by destruct (PyStr.contains _ _).
Qed.

End Calls.

(** ** The health check *)

Section Health.
Context `{Platform}.

(** C7.  [get_ca_health] always returns a dict; its status is "healthy"
    exactly when the [step ca health] subprocess completes with exit code
    0; a completed subprocess with another exit code gives "unhealthy"
    with the captured stderr as message; an invocation that raises gives
    "error" with the text of the exception. *)
Theorem get_ca_health_by_exit_code (w : world) :
  let run :=
    (subprocess_run
       ["step"; "ca"; "health"; "--ca-url"; STEP_CA_URL; "--root"; STEP_CA_ROOT]
       "/home/step" (files w) (ca w)).1.1 in
  ∃ h : gmap string string,
    (get_ca_health w).1 = Ret h
    ∧ (h !! "status" = Some "healthy" ↔ ∃ cp, run = Ret cp ∧ returncode cp = 0)
    ∧ (∀ cp, run = Ret cp → returncode cp ≠ 0 →
         h !! "status" = Some "unhealthy" ∧ h !! "message" = Some (stderr cp))
    ∧ (∀ e, run = Raise e →
         h !! "status" = Some "error" ∧ h !! "message" = Some (Py.str e)).
Proof.
  intros run. unfold get_ca_health, try_except.
  unfold mbind, M_bind, Py.bind. rewrite run_step_command_run.
  fold health_args in run. change (subprocess_run _ _ _ _).1.1 with run.
  destruct run as [cp|e] eqn:Hrun.
  - destruct (returncode cp =? 0) eqn:Hrc; eexists; (split; [reflexivity|]).
    + apply Z.eqb_eq in Hrc. split; [|split].
      * split; [eauto | by rewrite lookup_insert_eq].
      * intros cp' [= <-] Hne. done.
      * intros e [=].
    + apply Z.eqb_neq in Hrc. split; [|split].
      * rewrite lookup_insert_eq. split; [done|].
        intros (cp' & [= <-] & Hz). done.
      * intros cp' [= <-] _. rewrite lookup_insert_eq.
        by rewrite lookup_insert_ne, lookup_singleton_eq.
      * intros e [=].
  - eexists. split; [reflexivity|]. split; [|split].
    + rewrite lookup_insert_eq. split; [done|]. by intros (cp & [=] & _).
    + intros cp [=].
    + intros e' [= <-]. rewrite lookup_insert_eq.
      by rewrite lookup_insert_ne, lookup_singleton_eq.
Qed.

(** The check is delegated: it runs the client once and nothing else. *)
Lemma get_ca_health_invokes (w : world) :
  invoked w (get_ca_health w).2
  = [["step"; "ca"; "health"; "--ca-url"; STEP_CA_URL; "--root"; STEP_CA_ROOT]].
Proof.
  apply invoked_app. unfold get_ca_health, try_except.
  unfold mbind, M_bind, Py.bind. rewrite run_step_command_run.
  destruct (subprocess_run _ _ _ _).1.1 as [cp|e]; [|done].
  by destruct (returncode cp =? 0).
Qed.

End Health.

(** The three outcomes on concrete platforms. *)
Example health_of_running_ca :
  (@get_ca_health Sim.platform Sim.w0).1
  = Ret {[ "status" := "healthy"; "message" := "CA is running" ]}.
Proof. reflexivity. Qed.

Example health_of_stopped_ca :
  (@get_ca_health Sim.ca_down (mk_world Sim.ca_down Sim.fs0 tt 0 [])).1
  = Ret {[ "status" := "unhealthy"; "message" := "connection refused" ]}.
Proof. reflexivity. Qed.

Example health_without_client :
  (@get_ca_health Sim.no_client (mk_world Sim.no_client Sim.fs0 tt 0 [])).1
  = Ret {[ "status" := "error";
           "message" := "[Errno 2] No such file or directory: 'step'" ]}.
Proof. vm_compute. reflexivity. Qed.

(** ** Revocation: the two commands *)

Section RevokeFlow.
Context `{Platform}.

(** C1.  When the certificate file of the common name exists,
    [revoke_certificate] first runs [step ca token <serial> --revoke ...].
    If that command exits with code 0 it then runs
    [step ca revoke <serial> ... --token <token>], the token being the
    stripped standard output of the first command, and runs nothing else.
    If the token command exits with another code, the function returns
    failure with the stderr of the token command and the revoke command
    is never run. *)
Theorem revoke_certificate_two_steps (cn serial : string) (w : world) :
  Path.stat_exists (files w) (CERTS_DIR /: cn /: (cn +:+ ".crt")) = true →
  let token_cmd :=
    [ "step"; "ca"; "token"; serial; "--revoke";
      "--ca-url"; STEP_CA_URL; "--root"; STEP_CA_ROOT;
      "--provisioner"; "iot-devices";
      "--provisioner-password-file"; "/home/step/secrets/password" ] in
  let after := revoke_certificate cn serial w in
  match (subprocess_run token_cmd "/home/step" (files w) (ca w)).1.1 with
  | Ret tok =>
      if returncode tok =? 0 then
        invoked w after.2
        = [ token_cmd;
            [ "step"; "ca"; "revoke"; serial;
              "--ca-url"; STEP_CA_URL; "--root"; STEP_CA_ROOT;
              "--token"; PyStr.strip (stdout tok) ] ]
      else
        after.1 = Ret (false, "Failed to generate revocation token: " +:+ stderr tok)
        ∧ invoked w after.2 = [token_cmd]
  | Raise e => after.1 = Raise e ∧ invoked w after.2 = [token_cmd]
  end.
Proof.
  intros Hfile token_cmd after. subst after.
  rewrite revoke_certificate_run, Hfile. cbn [negb].
  rewrite run_step_command_run. fold (token_args serial) in token_cmd.
  change ("step" :: token_args serial) with token_cmd.
  destruct (subprocess_run token_cmd _ _ _) as [[[tok|e] fs1] ca1]; cbn [fst snd].
  - destruct (returncode tok =? 0); cbn [negb].
    + apply invoked_app. rewrite run_step_command_run. cbn [fst snd files ca].
      destruct (subprocess_run _ _ fs1 ca1) as [[[res|e] fs2] ca2]; cbn [fst snd].
      * destruct (_ || _).
        -- match goal with |- context [mark_revoked cn ?w2] =>
             pose proof (mark_revoked_calls cn w2) as Hm;
             destruct (mark_revoked cn w2) as [[[]|e] w3]
           end; cbn [fst snd calls] in *; rewrite Hm;
             by rewrite <- app_assoc.
        -- cbn [calls]. by rewrite <- app_assoc.
      * cbn [calls]. by rewrite <- app_assoc.
    + split; [done|]. by apply invoked_app.
  - split; [done|]. by apply invoked_app.
Qed.

End RevokeFlow.

(** On the small platform, revoking the issued ["site"] runs both commands. *)
Lemma revoke_certificate_two_steps_witness :
  invoked Scenario.w_site (@revoke_certificate Sim.platform "site" "42" Scenario.w_site).2
  = [ [ "step"; "ca"; "token"; "42"; "--revoke";
        "--ca-url"; "https://step-ca:9000"; "--root"; "/home/step/certs/root_ca.crt";
        "--provisioner"; "iot-devices";
        "--provisioner-password-file"; "/home/step/secrets/password" ];
      [ "step"; "ca"; "revoke"; "42";
        "--ca-url"; "https://step-ca:9000"; "--root"; "/home/step/certs/root_ca.crt";
        "--token"; "token-42" ] ].
Proof.
  apply (@revoke_certificate_two_steps Sim.platform "site" "42" Scenario.w_site).
  vm_compute. reflexivity.
Defined.

(** ** Issuing: the command *)

Section IssueCommand.
Context `{Platform}.

Lemma extend_sans_fold (l : list string) (cmd : list string) :
  fold_left
    (λ cmd san,
       if PyStr.truthy (PyStr.strip san) then cmd ++ ["--san"; PyStr.strip san] else cmd)
    l cmd
  = cmd ++ flat_map (λ s, ["--san"; PyStr.strip s])
             (List.filter (λ s, PyStr.truthy (PyStr.strip s)) l).
Proof.
  revert cmd. induction l as [|san l IH]; intros cmd; simpl.
  - by rewrite app_nil_r.
  - rewrite IH. destruct (PyStr.truthy (PyStr.strip san)); simpl; [|done].
    by rewrite <- app_assoc.
Qed.

Lemma extend_sans_eq (cmd : list string) (sans : option (list string)) :
  extend_sans cmd sans
  = cmd ++ flat_map (λ s, ["--san"; PyStr.strip s])
             (List.filter (λ s, PyStr.truthy (PyStr.strip s)) (default [] sans)).
Proof.
  destruct sans as [[|san l]|]; simpl; try by rewrite app_nil_r.
  apply (extend_sans_fold (san :: l)).
Qed.

(** [issue_certificate] from the answers of the file system and of the
    client. *)
Lemma issue_certificate_run cn cert_type validity_days sans w :
  issue_certificate cn cert_type validity_days sans w
  = let cert_file := CERTS_DIR /: cn /: (cn +:+ ".crt") in
    let key_file := CERTS_DIR /: cn /: (cn +:+ ".key") in
    match Path.mkdir_parents (CERTS_DIR /: cn) w with
    | (Raise e, w1) => (Raise e, w1)
    | (Ret _, w1) =>
        match run_step_command
                (extend_sans (certificate_args cn validity_days) sans) w1 with
        | (Raise e, w2) => (Raise e, w2)
        | (Ret result, w2) =>
            if returncode result =? 0 then
              (match FS.read (files w2) cert_file with
               | FS.Err code =>
                   Ret (false, "Error reading files: "
                               +:+ Py.str (Path.os_error code cert_file), ∅)
               | FS.Ok cert =>
                   match FS.read (files w2) key_file with
                   | FS.Err code =>
                       Ret (false, "Error reading files: "
                                   +:+ Py.str (Path.os_error code key_file), ∅)
                   | FS.Ok key =>
                       match FS.read (files w2) (PurePath.parse CA_BUNDLE) with
                       | FS.Err code =>
                           Ret (false, "Error reading files: "
                                       +:+ Py.str (Path.os_error code
                                                     (PurePath.parse CA_BUNDLE)), ∅)
                       | FS.Ok bundle =>
                           Ret (true, "Certificate issued successfully",
                                <["ca" := bundle]>
                                  (<["key" := key]> (<["cert" := cert]> ∅)))
                       end
                   end
               end, w2)
            else (Ret (false, "Error: " +:+ stderr result, ∅), w2)
        end
    end.
Proof.
  unfold issue_certificate. cbv zeta.
  unfold mbind at 1, M_bind at 1, Py.bind at 1.
  destruct (Path.mkdir_parents _ w) as [[[]|e] w1]; [|done].
  unfold mbind at 1, M_bind at 1, Py.bind at 1.
  destruct (run_step_command _ w1) as [[res|e] w2]; [|done].
  destruct (returncode res =? 0); [|done].
  unfold try_except, mbind, M_bind, Py.bind. rewrite read_run.
  destruct (FS.read _ _); [|done]. rewrite read_run.
  destruct (FS.read _ _); [|done]. rewrite read_run.
  by destruct (FS.read _ _).
Qed.

(** C4, amended.  Unless creating the directory [CERTS_DIR/cn] raises
    (then nothing is run and the exception propagates),
    [issue_certificate] runs exactly one command: [step ca certificate]
    with the enumerated arguments, followed by one [--san] pair for each
    entry of the SAN list whose stripped text is not empty, in order; the
    value passed is the stripped entry. *)
Theorem issue_certificate_command
    (cn cert_type : string) (validity_days : Z) (sans : option (list string))
    (w : world) :
  let after := issue_certificate cn cert_type validity_days sans w in
  match (Path.mkdir_parents (CERTS_DIR /: cn) w).1 with
  | Ret _ =>
      invoked w after.2
      = [ [ "step"; "ca"; "certificate"; cn;
            PurePath.str (CERTS_DIR /: cn /: (cn +:+ ".crt"));
            PurePath.str (CERTS_DIR /: cn /: (cn +:+ ".key"));
            "--ca-url"; STEP_CA_URL;
            "--root"; STEP_CA_ROOT;
            "--not-after"; PyStr.of_int (validity_days * 24) +:+ "h";
            "--provisioner"; "iot-devices";
            "--provisioner-password-file"; "/home/step/secrets/password";
            "--force" ]
          ++ flat_map (λ s, ["--san"; PyStr.strip s])
               (List.filter (λ s, PyStr.truthy (PyStr.strip s)) (default [] sans)) ]
  | Raise e => after.1 = Raise e ∧ invoked w after.2 = []
  end.
Proof.
  intros after. subst after. rewrite issue_certificate_run. cbv zeta.
  pose proof (mkdir_parents_calls (CERTS_DIR /: cn) w) as Hm.
  destruct (Path.mkdir_parents (CERTS_DIR /: cn) w) as [[[]|e] w1]; cbn [fst snd] in *.
  - apply invoked_app. rewrite <- Hm.
    rewrite run_step_command_run, extend_sans_eq.
    destruct (subprocess_run _ _ _ _) as [[[res|e] fs1] ca1]; cbn [fst snd]; [|done].
    by destruct (returncode res =? 0).
  - split; [done|]. by apply invoked_same.
Qed.

(** C10.  [cert_type] is never read: two calls that differ only in it
    are the same computation, so they build the same command, leave the
    same world and return the same triple. *)
Theorem issue_certificate_ignores_cert_type
    (cn type1 type2 : string) (validity_days : Z) (sans : option (list string))
    (w : world) :
  issue_certificate cn type1 validity_days sans w
  = issue_certificate cn type2 validity_days sans w.
Proof. reflexivity. Qed.

End IssueCommand.

(** C4, as worded, fails on an entry with surrounding blanks: the entry is
    passed stripped, not as it is. *)
Lemma issue_certificate_command_strips :
  invoked Sim.w0
    (@issue_certificate Sim.platform "site" "Server" 30 (Some [" a.com "]) Sim.w0).2
  ≠ [ @Spec.certificate_command Sim.platform "site" 30 [" a.com "] ].
Proof. vm_compute. intros Heq. discriminate Heq. Qed.

Example issue_certificate_command_site :
  invoked Sim.w0
    (@issue_certificate Sim.platform "site" "Server" 30 (Some [" a.com "; "  "; "b"]) Sim.w0).2
  = [ [ "step"; "ca"; "certificate"; "site";
        "/app/certs/site/site.crt"; "/app/certs/site/site.key";
        "--ca-url"; "https://step-ca:9000";
        "--root"; "/home/step/certs/root_ca.crt";
        "--not-after"; "720h";
        "--provisioner"; "iot-devices";
        "--provisioner-password-file"; "/home/step/secrets/password";
        "--force"; "--san"; "a.com"; "--san"; "b" ] ].
Proof. vm_compute. reflexivity. Qed.

(** ** Renaming and removing an entry of a directory *)

Section Siblings.
Import FS.

Lemma is_prefix_refl (d : loc) : is_prefix d d = true.
Proof. induction d as [|a d IH]; simpl; [done|]. by rewrite String.eqb_refl. Qed.


Lemma no_dotdot_snoc d a : no_dotdot d → a ≠ ".." → no_dotdot (d ++ [a]).
Proof. intros Hd Ha. apply Forall_app. split; [done|]. by apply Forall_singleton. Qed.







Lemma stat_exists_get `{Platform} fs r (comps : loc) :
  no_dotdot comps →
  Path.stat_exists fs (PurePath.mk r comps) = bool_decide (is_Some (get fs comps)).
Proof.
  intros Hn. unfold Path.stat_exists.
  destruct (get fs comps) as [x|] eqn:Hg.
  - rewrite (stat_existing fs _ x) by done. by rewrite bool_decide_eq_true_2.
  - destruct (stat_missing fs (PurePath.mk r comps)) as [e ->]; [done..|].
    rewrite bool_decide_eq_false_2; [done|]. by intros [? ?].
Qed.

Lemma stat_is_dir_get `{Platform} fs r (comps : loc) :
  no_dotdot comps →
  Path.stat_is_dir fs (PurePath.mk r comps) = true
  ↔ ∃ ch, get fs comps = Some (Dir ch).
Proof.
  intros Hn. unfold Path.stat_is_dir. split.
  - destruct (stat fs _) as [[q [|ch]]|] eqn:Hs; try done.
    apply stat_inv in Hs as [_ Hs]; eauto.
  - intros [ch Hg]. by rewrite (stat_existing fs _ (Dir ch)).
Qed.

Lemma certs_loc_no_dotdot : no_dotdot certs_loc.
Proof. repeat constructor; done. Qed.

End Siblings.

(** ** Revocation: the directory *)

Section RevokeDirectory.
Context `{Platform}.
Import FS.









End RevokeDirectory.




(** ** Revocation of a certificate the CA has revoked already *)

Section AlreadyRevoked.
Context `{Platform}.







End AlreadyRevoked.


(** ** The listing *)

Section Listing.
Context `{Platform}.

Lemma list_step_run certs name w :
  ∃ rows,
    list_step certs (child CERTS_DIR name) w = (Ret (certs ++ rows), w)
    ∧ ∀ r, r ∈ rows → row_cn r = name ∧ row_source (files w) r.
Proof.
  unfold list_step, row_source.
  unfold mbind at 1, M_bind at 1, Py.bind at 1. rewrite is_dir_run.
  destruct (Path.stat_is_dir _ _) eqn:Hdir.
  - unfold mbind at 1, M_bind at 1, Py.bind at 1. rewrite exists_run.
    rewrite child_name.
    destruct (Path.stat_exists _ _) eqn:Hex.
    + assert (∀ r : cert_row, row_cn r = name →
                ∀ r', r' ∈ [r] → row_cn r' = name
                  ∧ Path.stat_is_dir (files w) (child CERTS_DIR (row_cn r')) = true
                  ∧ Path.stat_exists (files w)
                      (child CERTS_DIR (row_cn r') /: (row_cn r' +:+ ".crt")) = true)
        as Hone.
      { intros r Hr r' ->%list_elem_of_singleton. by rewrite Hr. }
      unfold try_except, mbind, M_bind, Py.bind. rewrite read_run.
      destruct (FS.read _ _) as [data|code].
      * unfold lift, datetime_now.
        destruct (load_pem_x509_certificate data) as [cert|e];
          eexists [_]; (split; [reflexivity|]); by apply Hone.
      * eexists [_]. split; [reflexivity|]. by apply Hone.
    + exists []. rewrite app_nil_r. split; [done|]. by intros r ?%elem_of_nil.
  - exists []. rewrite app_nil_r. split; [done|]. by intros r ?%elem_of_nil.
Qed.

Lemma for_each_list_step names certs w :
  ∃ rows,
    for_each (child CERTS_DIR <$> names) certs list_step w = (Ret (certs ++ rows), w)
    ∧ ∀ r, r ∈ rows → row_cn r ∈ names ∧ row_source (files w) r.
Proof.
  revert certs. induction names as [|name names IH]; intros certs.
  - exists []. rewrite app_nil_r. split; [done|]. by intros r ?%elem_of_nil.
  - cbn [fmap list_fmap for_each]. unfold Py.bind.
    destruct (list_step_run certs name w) as (rows1 & -> & H1).
    destruct (IH (certs ++ rows1)) as (rows2 & H2 & H3).
    change (list_fmap _ _ (child CERTS_DIR) names) with (child CERTS_DIR <$> names).
    rewrite H2. exists (rows1 ++ rows2). rewrite app_assoc. split; [done|].
    intros r [Hr|Hr]%elem_of_app.
    + destruct (H1 r Hr) as [<- Hs]. split; [left|done].
    + destruct (H3 r Hr) as [Hn Hs]. split; [by right|done].
Qed.

Lemma insert_by_cn_perm x l : insert_by_cn x l ≡ₚ x :: l.
Proof.
  induction l as [|y l IH]; simpl; [done|].
  destruct (String.leb _ _); [done|]. rewrite IH. apply Permutation_swap.
Qed.

Lemma sorted_by_cn_perm l : sorted_by_cn l ≡ₚ l.
Proof.
  induction l as [|x l IH]; simpl; [done|].
  by rewrite insert_by_cn_perm, IH.
Qed.

(** [list_certificates] either raises because [CERTS_DIR] cannot be
    listed, or returns rows that all have a source; the world is the
    same afterwards. *)
Lemma list_certificates_run w :
  (list_certificates w).2 = w
  ∧ ∀ out, (list_certificates w).1 = Ret out →
      ∀ r, r ∈ out → row_source (files w) r.
Proof.
  unfold list_certificates, mbind, M_bind, Py.bind. rewrite iterdir_run.
  destruct (FS.listdir (files w) CERTS_DIR) as [names|code];
    [|split; [done|]; intros out Ho; discriminate Ho].
  destruct (for_each_list_step names [] w) as (rows & -> & Hrows).
  split; [done|].
  intros out [= <-] r Hr. cbn [app] in Hr.
  rewrite sorted_by_cn_perm in Hr. by apply Hrows.
Qed.

(** C3, amended.  [list_certificates] does not shell out: it runs no
    command and leaves the world as it is.  Every row it returns comes
    from the local certificate directory: [CERTS_DIR/<cn>] is a directory
    and [CERTS_DIR/<cn>/<cn>.crt] exists. *)
Theorem list_certificates_reads_directory (w : world) :
  (list_certificates w).2 = w
  ∧ invoked w (list_certificates w).2 = []
  ∧ ∀ out, (list_certificates w).1 = Ret out →
      ∀ r, r ∈ out →
        Path.stat_is_dir (files w) (child CERTS_DIR (row_cn r)) = true
        ∧ Path.stat_exists (files w)
            (child CERTS_DIR (row_cn r) /: (row_cn r +:+ ".crt")) = true.
Proof.
  destruct (list_certificates_run w) as [Hw Hrows].
  split; [done|]. split; [|exact Hrows].
  apply invoked_same. by rewrite Hw.
Qed.

End Listing.

(** C3, as worded, fails: the listing of the world where ["site"] has been
    issued returns its row without a single invocation of the client. *)
Lemma list_certificates_without_client :
  (@list_certificates Sim.platform Scenario.w_site).1
  = Ret [ {| row_cn := "site"; row_issued := "100"; row_expires := "200";
             row_serial := "42"; row_status := "Active" |} ]
  ∧ invoked Scenario.w_site (@list_certificates Sim.platform Scenario.w_site).2 = [].
Proof. vm_compute. split; reflexivity. Qed.

(** ** Revoked certificates and the listing *)

Section RevokedListing.
Context `{Platform}.
Import FS.

Lemma child_certs name : child CERTS_DIR name = PurePath.mk "/" (certs_loc ++ [name]).
Proof. reflexivity. Qed.

Lemma child_file_plain name t :
  no_slash name = true → no_slash t = true → (3 ≤ String.length t)%nat →
  child CERTS_DIR name /: (name +:+ t)
  = PurePath.mk "/" (certs_loc ++ [name; name +:+ t]).
Proof.
  intros Hs Ht Hl. rewrite <- (child_name CERTS_DIR name) at 2.
  by apply child_inner_plain.
Qed.



End RevokedListing.



(** ** Issuing: the files *)

Section IssueFiles.
Context `{Platform}.
Import FS.







End IssueFiles.

(** ** The runs on the small platform *)

Lemma sim_issue_site :
  @issue_certificate Sim.platform "site" "Client" 30 None Sim.w0
  = (Ret (true, "Certificate issued successfully",
          <["ca" := "BUNDLE"]> (<["key" := "KEY site"]> (<["cert" := "CERT site"]> ∅))),
     Scenario.w_site).
Proof.
  assert ((@issue_certificate Sim.platform "site" "Client" 30 None Sim.w0).1
          = Ret (true, "Certificate issued successfully",
                 <["ca" := "BUNDLE"]> (<["key" := "KEY site"]> (<["cert" := "CERT site"]> ∅))))
    as Hres by (vm_compute; reflexivity).
  unfold Scenario.w_site, Scenario.issue. rewrite <- Hres.
  by destruct (issue_certificate _ _ _ _ _).
Qed.


Lemma sim_site_directory :
  FS.get (files Scenario.w_site) (certs_loc ++ ["site"])
  = Some (FS.Dir (list_to_map [ ("site.crt", FS.File "CERT site");
                                ("site.key", FS.File "KEY site") ])).
Proof. vm_compute. reflexivity. Qed.





(** * The rest of the console *)

(** ** The fingerprint and the provisioner password *)

Section Helpers.
Context `{Platform}.

(** [get_ca_fingerprint] never raises and runs one command,
    [step certificate fingerprint <root>]: it returns the stripped standard
    output when the command exits with code 0, "Unable to get fingerprint"
    for another exit code, and "Error: " followed by the text of the
    exception when the command cannot be run. *)
Theorem get_ca_fingerprint_by_exit_code (w : world) :
  let cmd := ["step"; "certificate"; "fingerprint"; STEP_CA_ROOT] in
  (get_ca_fingerprint w).1
  = Ret (match (subprocess_run cmd "/home/step" (files w) (ca w)).1.1 with
         | Ret cp =>
             if returncode cp =? 0 then PyStr.strip (stdout cp)
             else "Unable to get fingerprint"
         | Raise e => "Error: " +:+ Py.str e
         end)
  ∧ invoked w (get_ca_fingerprint w).2 = [cmd].
Proof.
  intros cmd. unfold get_ca_fingerprint, try_except.
  unfold mbind, M_bind, Py.bind. rewrite run_step_command_run.
  change ("step" :: _) with cmd.
  destruct (subprocess_run cmd _ _ _) as [[[cp|e] fs1] ca1]; cbn [fst snd].
  - destruct (returncode cp =? 0); (split; [done|]); by apply invoked_app.
  - split; [done|]. by apply invoked_app.
Qed.


End Helpers.

(** ** Stripping *)

Section Strip.

Lemma lstrip_head s c t : PyStr.lstrip s = String c t → PyStr.isspace c = false.
Proof.
  induction s as [|a s IH]; simpl; [done|].
  destruct (PyStr.isspace a) eqn:Ha; [done|]. by intros [= <- <-].
Qed.

Lemma rstrip_cons c s :
  PyStr.isspace c = false → PyStr.rstrip (String c s) = String c (PyStr.rstrip s).
Proof. intros Hc. simpl. rewrite Hc. by destruct (PyStr.rstrip s). Qed.

Lemma rstrip_unfold c s :
  PyStr.rstrip (String c s)
  = match PyStr.rstrip s with
    | EmptyString => if PyStr.isspace c then EmptyString else String c EmptyString
    | r => String c r
    end.
Proof. done. Qed.

Lemma rstrip_idem s : PyStr.rstrip (PyStr.rstrip s) = PyStr.rstrip s.
Proof.
  induction s as [|c s IH]; [done|]. rewrite rstrip_unfold.
  destruct (PyStr.rstrip s) as [|a r] eqn:Hr.
  - destruct (PyStr.isspace c) eqn:Hc; [done|]. simpl. by rewrite Hc.
  - rewrite rstrip_unfold. by rewrite IH.
Qed.

(** Stripping what is stripped changes nothing. *)
Lemma strip_idem s : PyStr.strip (PyStr.strip s) = PyStr.strip s.
Proof.
  unfold PyStr.strip. destruct (PyStr.lstrip s) as [|c t] eqn:Hl; [done|].
  pose proof (lstrip_head _ _ _ Hl) as Hc.
  rewrite rstrip_cons by done. cbn [PyStr.lstrip]. rewrite Hc.
  rewrite <- rstrip_cons by done. apply rstrip_idem.
Qed.

End Strip.

(** ** The issue form *)

Section Form.
Context `{Platform}.

Lemma alnum_not_slash a : Text.isalnum_char a = true → Ascii.eqb a "/" = false.
Proof. by destruct a as [[] [] [] [] [] [] [] []]. Qed.

Lemma name_is_alnum_no_slash s :
  Text.all_alnum
    (Text.remove_char "." (Text.remove_char "_" (Text.remove_char "-" s))) = true →
  no_slash s = true.
Proof.
  induction s as [|a s IH]; [done|]. cbn [Text.remove_char no_slash].
  destruct (Ascii.eqb_spec a "-") as [->|_]; [exact IH|].
  cbn [Text.remove_char].
  destruct (Ascii.eqb_spec a "_") as [->|_]; [exact IH|].
  cbn [Text.remove_char].
  destruct (Ascii.eqb_spec a ".") as [->|_]; [exact IH|].
  cbn [Text.all_alnum]. intros [Ha Hs]%andb_true_iff.
  rewrite (alnum_not_slash a Ha). by apply IH.
Qed.

Lemma name_is_alnum_plain cn : name_is_alnum cn = true → plain cn = true.
Proof.
  intros Hok. unfold plain.
  assert (no_slash cn = true) as ->.
  { apply name_is_alnum_no_slash. unfold name_is_alnum, Text.isalnum in Hok.
    by apply andb_true_iff in Hok as [_ ?]. }
  destruct (String.eqb_spec cn "") as [->|_]; [done|].
  destruct (String.eqb_spec cn ".") as [->|_]; [done|].
  by destruct (String.eqb_spec cn "..") as [->|_].
Qed.

(** A name the issue form accepts is a single path component: it is not
    empty, has no slash, and is neither ["."] nor [".."]. *)
Theorem form_accepts_plain_names (common_name : string) :
  name_is_alnum common_name = true → plain common_name = true.
Proof. apply name_is_alnum_plain. Qed.


(** For a certificate type other than "Server" the SAN field of the form
    is ignored: the submission is the one with the field left empty. *)
Theorem form_ignores_sans_unless_server
    (common_name cert_type : string) (validity : Z) (sans_input : string) (w : world) :
  cert_type ≠ "Server" →
  issue_form_submit common_name cert_type validity sans_input w
  = issue_form_submit common_name cert_type validity "" w.
Proof.
  intros Hct%String.eqb_neq. unfold issue_form_submit, form_sans. by rewrite Hct.
Qed.

Lemma form_sans_stripped cert_type sans_input :
  Forall (λ s, PyStr.strip s = s) (form_sans cert_type sans_input).
Proof.
  unfold form_sans. destruct (_ && _); [|done].
  apply Forall_fmap, Forall_forall. intros s _. apply strip_idem.
Qed.

Lemma san_pairs_stripped (l : list string) :
  Forall (λ s, PyStr.strip s = s) l →
  flat_map (λ s, ["--san"; PyStr.strip s])
    (List.filter (λ s, PyStr.truthy (PyStr.strip s)) l)
  = flat_map (λ s, ["--san"; s])
      (List.filter (λ s, PyStr.truthy (PyStr.strip s)) l).
Proof.
  induction 1 as [|s l Hs _ IH]; [done|]. cbn [List.filter].
  destruct (PyStr.truthy (PyStr.strip s)); [|done].
  cbn [flat_map]. by rewrite IH, Hs.
Qed.

(** The commands run by [issue_certificate] once the directory is made. *)
Lemma issue_certificate_invoked cn cert_type validity_days sans w :
  (Path.mkdir_parents (CERTS_DIR /: cn) w).1 = Ret tt →
  invoked w (issue_certificate cn cert_type validity_days sans w).2
  = [ "step" :: extend_sans (certificate_args cn validity_days) sans ].
Proof.
  intros Hmk. rewrite issue_certificate_run. cbv zeta.
  pose proof (mkdir_parents_calls (CERTS_DIR /: cn) w) as Hm.
  destruct (Path.mkdir_parents (CERTS_DIR /: cn) w) as [[[]|e] w1]; [|done].
  cbn [fst snd] in *. apply invoked_app. rewrite <- Hm.
  rewrite run_step_command_run.
  destruct (subprocess_run _ _ _ _) as [[[res|e] fs1] ca1]; cbn [fst snd]; [|done].
  by destruct (returncode res =? 0).
Qed.

(** When every entry of the SAN list is free of surrounding blanks, the
    command run by [issue_certificate] carries the entries that are not
    empty as they are given, one [--san] pair each, in order. *)
Theorem issue_certificate_command_stripped_sans
    (cn cert_type : string) (validity_days : Z) (sans : list string) (w : world) :
  Forall (λ s, PyStr.strip s = s) sans →
  (Path.mkdir_parents (CERTS_DIR /: cn) w).1 = Ret tt →
  invoked w (issue_certificate cn cert_type validity_days (Some sans) w).2
  = [ Spec.certificate_command cn validity_days sans ].
Proof.
  intros Hs Hmk. rewrite issue_certificate_invoked by done.
  rewrite extend_sans_eq. cbn [default]. by rewrite san_pairs_stripped.
Qed.

(** A submission of the issue form with an accepted name runs one command:
    the certificate command with one [--san] pair for each comma-separated
    piece of the SAN field that is not blank, stripped, when the type is
    "Server", and without any [--san] pair otherwise. *)
Theorem form_command
    (common_name cert_type : string) (validity : Z) (sans_input : string) (w : world) :
  name_is_alnum common_name = true →
  (Path.mkdir_parents (CERTS_DIR /: common_name) w).1 = Ret tt →
  invoked w (issue_form_submit common_name cert_type validity sans_input w).2
  = [ Spec.certificate_command common_name validity
        (if String.eqb cert_type "Server" && PyStr.truthy sans_input
         then PyStr.strip <$> Text.split "," sans_input else []) ].
Proof.
  intros Hok Hmk. unfold issue_form_submit.
  assert (PyStr.truthy common_name = true) as ->.
  { unfold name_is_alnum in Hok. by destruct common_name. }
  rewrite Hok. cbn [negb]. fold (form_sans cert_type sans_input).
  unfold mbind, M_bind, Py.bind.
  pose proof (issue_certificate_invoked common_name cert_type validity
                (Some (form_sans cert_type sans_input)) w Hmk) as Hinv.
  destruct (issue_certificate _ _ _ _ w) as [[[[ok msg] fd]|e] w1]; cbn [snd] in *.
  - rewrite extend_sans_eq in Hinv. cbn [default] in Hinv.
    rewrite san_pairs_stripped in Hinv by apply form_sans_stripped.
    by destruct ok.
  - rewrite extend_sans_eq in Hinv. cbn [default] in Hinv.
    by rewrite san_pairs_stripped in Hinv by apply form_sans_stripped.
Qed.

End Form.

Lemma form_accepts_plain_names_witness : plain "site-001" = true.
Proof. apply form_accepts_plain_names. reflexivity. Defined.


Lemma form_ignores_sans_unless_server_witness :
  @issue_form_submit Sim.platform "site" "Client" 30 "a.com, 10.0.0.1" Sim.w0
  = @issue_form_submit Sim.platform "site" "Client" 30 "" Sim.w0.
Proof. apply form_ignores_sans_unless_server. intros Heq. discriminate Heq. Defined.

Lemma issue_certificate_command_stripped_sans_witness :
  invoked Sim.w0
    (@issue_certificate Sim.platform "site" "Server" 30 (Some ["a.com"; ""; "b"]) Sim.w0).2
  = [ @Spec.certificate_command Sim.platform "site" 30 ["a.com"; ""; "b"] ].
Proof.
  apply issue_certificate_command_stripped_sans.
  - repeat constructor.
  - vm_compute. reflexivity.
Defined.

Lemma form_command_witness :
  invoked Sim.w0
    (@issue_form_submit Sim.platform "site" "Server" 30 " a.com , b,," Sim.w0).2
  = [ @Spec.certificate_command Sim.platform "site" 30 ["a.com"; "b"; ""; ""] ].
Proof.
  apply (@form_command Sim.platform "site" "Server" 30 " a.com , b,," Sim.w0).
  - reflexivity.
  - vm_compute. reflexivity.
Defined.

(** ** Issuing: what is returned and what is left behind *)

Section IssueEdges.
Context `{Platform}.
Import FS.

(** The triple returned by [issue_certificate] has one of two shapes:
    success with the fixed message and a dict of exactly the keys "cert",
    "key" and "ca", or failure with an empty dict. *)
Theorem issue_certificate_result_shape
    (cn cert_type : string) (validity_days : Z) (sans : option (list string))
    (w w' : world) (ok : bool) (msg : string) (files_dict : gmap string string) :
  issue_certificate cn cert_type validity_days sans w = (Ret (ok, msg, files_dict), w') →
  if ok
  then msg = "Certificate issued successfully"
       ∧ dom files_dict = ({["cert"; "key"; "ca"]} : gset string)
  else files_dict = ∅.
Proof.
  rewrite issue_certificate_run. cbv zeta.
  destruct (Path.mkdir_parents _ w) as [[[]|e] w1]; [|done].
  destruct (run_step_command _ w1) as [[res|e] w2]; [|done].
  destruct (returncode res =? 0); [|by intros [= <- <- <-]].
  destruct (read _ _); [|by intros [= <- <- <-]].
  destruct (read _ _); [|by intros [= <- <- <-]].
  destruct (read _ _); intros [= <- <- <-]; [|done].
  split; [done|]. rewrite !dom_insert_L, dom_empty_L. set_solver.
Qed.

(** Making the directory of a plain name under an existing [CERTS_DIR]. *)
Lemma mkdir_cert_dir cn w chc :
  plain cn = true →
  get (files w) certs_loc = Some (Dir chc) →
  Path.mkdir_parents (CERTS_DIR /: cn) w
  = match chc !! cn with
    | None => (Ret tt, mk_world _ (put (files w) (certs_loc ++ [cn]) (Dir ∅))
                         (ca w) (clock w) (calls w))
    | Some (Dir _) => (Ret tt, w)
    | Some (File _) =>
        (Raise (OSError EEXIST (PurePath.str (CERTS_DIR /: cn)) None), w)
    end.
Proof.
  intros Hp Hc. rewrite cert_dir_plain by done.
  pose proof (plain_not_dotdot _ Hp) as Hd.
  pose proof (no_dotdot_snoc _ _ certs_loc_no_dotdot Hd) as Hn.
  assert (FS.mkdir (files w) (PurePath.mk "/" (certs_loc ++ [cn]))
          = match chc !! cn with
            | None => Ok (put (files w) (certs_loc ++ [cn]) (Dir ∅))
            | Some _ => Err EEXIST
            end) as Hmk.
  { unfold FS.mkdir. cbn [PurePath.parts].
    rewrite (resolve_parent (files w) [] certs_loc cn chc) by done. cbn [app].
    change ["app"; "certs"; cn] with (certs_loc ++ [cn]).
    rewrite (get_child _ _ _ chc) by done. by destruct (chc !! cn). }
  assert (Path.stat_is_dir (files w) (PurePath.mk "/" (certs_loc ++ [cn]))
          = match chc !! cn with Some (Dir _) => true | _ => false end) as Hdir.
  { destruct (chc !! cn) as [[data|ch]|] eqn:Hcn.
    - apply not_true_is_false. intros [ch Hch]%stat_is_dir_get; [|done].
      rewrite (get_child _ _ _ chc) in Hch by done. congruence.
    - apply stat_is_dir_get; [done|]. exists ch. by rewrite (get_child _ _ _ chc).
    - apply not_true_is_false. intros [ch Hch]%stat_is_dir_get; [|done].
      rewrite (get_child _ _ _ chc) in Hch by done. congruence. }
  unfold Path.mkdir_parents. unfold_monad. cbn [PurePath.root PurePath.parts].
  rewrite rev_app_distr. cbn [rev app]. unfold Path.mkdir_from at 1.
  cbn [rev app]. change ["app"; "certs"; cn] with (certs_loc ++ [cn]).
  rewrite !rev_involutive, Hmk, Hdir.
  destruct (chc !! cn) as [[data|ch]|] eqn:Hcn; by destruct w.
Qed.

(** When a regular file stands where the directory of the name must go,
    [issue_certificate] raises [FileExistsError] before it runs any
    command, and changes nothing. *)
Theorem issue_certificate_blocked_by_file
    (cn cert_type : string) (validity_days : Z) (sans : option (list string))
    (w : world) (chc : gmap string node) (data : string) :
  plain cn = true →
  get (files w) certs_loc = Some (Dir chc) →
  chc !! cn = Some (File data) →
  issue_certificate cn cert_type validity_days sans w
  = (Raise (OSError EEXIST (PurePath.str (CERTS_DIR /: cn)) None), w).
Proof.
  intros Hp Hc Hcn. rewrite issue_certificate_run. cbv zeta.
  by rewrite (mkdir_cert_dir cn w chc), Hcn.
Qed.


End IssueEdges.

Lemma issue_certificate_result_shape_witness :
  "Certificate issued successfully" = "Certificate issued successfully"
  ∧ dom (<["ca" := "BUNDLE"]> (<["key" := "KEY site"]> (<["cert" := "CERT site"]> ∅))
         : gmap string string)
    = ({["cert"; "key"; "ca"]} : gset string).
Proof.
  apply (@issue_certificate_result_shape Sim.platform "site" "Client" 30 None
           Sim.w0 Scenario.w_site true).
  apply sim_issue_site.
Defined.

Lemma issue_certificate_blocked_by_file_witness :
  let w := mk_world Sim.platform
             (Sim.dir [("app", Sim.dir [("certs", Sim.dir [("site", FS.File "note")])])])
             [] 0 [] in
  @issue_certificate Sim.platform "site" "Client" 30 None w
  = (Raise (OSError FS.EEXIST (PurePath.str (CERTS_DIR /: "site")) None), w).
Proof.
  intros w.
  apply (@issue_certificate_blocked_by_file Sim.platform "site" "Client" 30 None w
           (list_to_map [("site", FS.File "note")]) "note").
  - reflexivity.
  - vm_compute. reflexivity.
  - vm_compute. reflexivity.
Defined.


(** ** Revocation: failure, repetition, and the other directories *)

Section RevokeEdges.
Context `{Platform}.
Import FS.

(** When the revoke command fails (nonzero exit code, and no "already
    revoked" in its stderr), [revoke_certificate] returns failure with that
    stderr and does not touch the file system itself: the files are as the
    client left them, and the directory keeps its name. *)
Theorem revoke_failure_keeps_files
    (cn serial : string) (w : world)
    (tok res : CompletedProcess) (fs1 fs2 : node) (ca1 ca2 : remote) :
  Path.stat_exists (files w) (CERTS_DIR /: cn /: (cn +:+ ".crt")) = true →
  subprocess_run ("step" :: token_args serial) "/home/step" (files w) (ca w)
  = (Ret tok, fs1, ca1) →
  returncode tok = 0 →
  subprocess_run ("step" :: revoke_args serial (PyStr.strip (stdout tok)))
    "/home/step" fs1 ca1 = (Ret res, fs2, ca2) →
  returncode res ≠ 0 →
  PyStr.contains "already revoked" (PyStr.lower (stderr res)) = false →
  ∃ w',
    revoke_certificate cn serial w = (Ret (false, "Error: " +:+ stderr res), w')
    ∧ files w' = fs2.
Proof.
  intros Hfile Htok Hrc Hrev Hrc' Hnot.
  rewrite revoke_certificate_run, Hfile. cbn [negb].
  rewrite run_step_command_run, Htok. cbn [fst snd]. rewrite Hrc. cbn [Z.eqb negb].
  rewrite run_step_command_run. cbn [files ca]. rewrite Hrev. cbn [fst snd]. cbv zeta.
  apply Z.eqb_neq in Hrc'. rewrite Hrc', Hnot. cbn [orb]. eauto.
Qed.





End RevokeEdges.

Lemma revoke_failure_keeps_files_witness :
  let w := mk_world revocation_denied (files Scenario.w_site) tt 0 [] in
  ∃ w',
    @revoke_certificate revocation_denied "site" "42" w
    = (Ret (false, "Error: " +:+ "error: unauthorized"), w')
    ∧ files w' = files Scenario.w_site.
Proof.
  intros w.
  apply (@revoke_failure_keeps_files revocation_denied "site" "42" w
           {| returncode := 0; stdout := "token"; stderr := "" |}
           {| returncode := 1; stdout := ""; stderr := "error: unauthorized" |}
           (files Scenario.w_site) (files Scenario.w_site) tt tt).
  - vm_compute. reflexivity.
  - reflexivity.
  - reflexivity.
  - reflexivity.
  - done.
  - vm_compute. reflexivity.
Defined.




(** ** The listing as a function of the directory *)

Section ListingRows.
Context `{Platform}.
Import FS.

Lemma list_step_listed certs name w :
  list_step certs (child CERTS_DIR name) w
  = (Ret (certs ++ option_list (listed_row (files w) (clock w) name)), w).
Proof.
  unfold list_step, listed_row. cbv zeta.
  unfold mbind at 1, M_bind at 1, Py.bind at 1. rewrite is_dir_run.
  destruct (Path.stat_is_dir _ _); cbn [andb]; [|by rewrite app_nil_r].
  unfold mbind at 1, M_bind at 1, Py.bind at 1. rewrite exists_run, child_name.
  destruct (Path.stat_exists _ _); [|by rewrite app_nil_r].
  unfold try_except, mbind, M_bind, Py.bind. rewrite read_run.
  destruct (FS.read _ _) as [data|code]; [|done].
  unfold lift, datetime_now. by destruct (load_pem_x509_certificate data).
Qed.

Lemma for_each_listed names certs w :
  for_each (child CERTS_DIR <$> names) certs list_step w
  = (Ret (certs ++ omap (listed_row (files w) (clock w)) names), w).
Proof.
  revert certs. induction names as [|name names IH]; intros certs.
  - cbn. by rewrite app_nil_r.
  - cbn [fmap list_fmap for_each]. unfold Py.bind. rewrite list_step_listed.
    change (list_fmap _ _ (child CERTS_DIR) names) with (child CERTS_DIR <$> names).
    rewrite IH, <- app_assoc. cbn [omap list_omap].
    by destruct (listed_row _ _ name).
Qed.

(** [list_certificates] as a function of the world. *)
Lemma list_certificates_listed w :
  list_certificates w
  = (match listdir (files w) CERTS_DIR with
     | Ok names => Ret (sorted_by_cn (omap (listed_row (files w) (clock w)) names))
     | Err code => Raise (Path.os_error code CERTS_DIR)
     end, w).
Proof.
  unfold list_certificates, mbind, M_bind, Py.bind. rewrite iterdir_run.
  destruct (listdir (files w) CERTS_DIR) as [names|code]; [|done].
  by rewrite for_each_listed.
Qed.

Lemma listed_row_cn fs now name r : listed_row fs now name = Some r → row_cn r = name.
Proof.
  unfold listed_row. cbv zeta. destruct (_ && _); [|done]. intros [= <-].
  destruct (FS.read _ _); [|done]. by destruct (load_pem_x509_certificate _).
Qed.

Lemma listed_names_sublist fs now names :
  row_cn <$> omap (listed_row fs now) names `sublist_of` names.
Proof.
  induction names as [|name names IH]; [done|]. cbn [omap list_omap].
  destruct (listed_row fs now name) as [r|] eqn:Hr.
  - cbn [fmap list_fmap]. rewrite (listed_row_cn _ _ _ _ Hr). by constructor.
  - by constructor.
Qed.

(** The names that [CERTS_DIR] lists are the keys of its directory. *)
Lemma listdir_certs fs names :
  listdir fs CERTS_DIR = Ok names →
  ∃ chc, get fs certs_loc = Some (Dir chc) ∧ names = (map_to_list chc).*1.
Proof.
  unfold listdir. destruct (stat fs CERTS_DIR) as [[q [data|chc]]|e] eqn:Hs; try done.
  intros [= <-]. apply stat_inv in Hs as [_ Hs]; [eauto | apply certs_loc_no_dotdot].
Qed.


Lemma elem_of_keys (chc : gmap string node) name :
  name ∈ (map_to_list chc).*1 ↔ is_Some (chc !! name).
Proof.
  rewrite list_elem_of_fmap. split.
  - intros ([k x] & -> & Hkx). apply elem_of_map_to_list in Hkx. eauto.
  - intros [x Hx]. exists (name, x). split; [done|]. by apply elem_of_map_to_list.
Qed.

Lemma HdRel_insert_by_cn y x l :
  HdRel (λ a b, String.leb (row_cn a) (row_cn b) = true) y l →
  String.leb (row_cn y) (row_cn x) = true →
  HdRel (λ a b, String.leb (row_cn a) (row_cn b) = true) y (insert_by_cn x l).
Proof.
  intros Hl Hyx. destruct l as [|z l]; simpl; [by constructor|].
  destruct (String.leb (row_cn x) (row_cn z)); constructor; [done|].
  by apply HdRel_inv in Hl.
Qed.

Lemma insert_by_cn_sorted x l : sorted_rows l → sorted_rows (insert_by_cn x l).
Proof.
  unfold sorted_rows. induction 1 as [|y l Hs IH Hhd]; simpl.
  - repeat constructor.
  - destruct (String.leb (row_cn x) (row_cn y)) eqn:Hxy.
    + constructor; [by constructor | by constructor].
    + constructor; [done|]. apply HdRel_insert_by_cn; [done|].
      destruct (String.leb_total (row_cn x) (row_cn y)); congruence.
Qed.

Lemma sorted_by_cn_sorted l : sorted_rows (sorted_by_cn l).
Proof.
  induction l as [|x l IH]; simpl; [constructor|]. by apply insert_by_cn_sorted.
Qed.

(** The rows that [list_certificates] returns are in the order of their
    common names: no row is followed by one with a smaller name. *)
Theorem list_certificates_sorted (w : world) (out : list cert_row) :
  (list_certificates w).1 = Ret out → sorted_rows out.
Proof.
  rewrite list_certificates_listed. cbn [fst].
  destruct (listdir _ _); [|done]. intros [= <-]. apply sorted_by_cn_sorted.
Qed.

(** No two rows of the listing have the same common name, so the dict of
    the revoke page, keyed by name, loses no row. *)
Theorem list_certificates_distinct_names (w : world) (out : list cert_row) :
  (list_certificates w).1 = Ret out → NoDup (row_cn <$> out).
Proof.
  rewrite list_certificates_listed. cbn [fst].
  destruct (listdir _ _) as [names|] eqn:Hl; [|done]. intros [= <-].
  rewrite sorted_by_cn_perm.
  apply listdir_certs in Hl as (chc & _ & ->).
  eapply sublist_NoDup; [|apply listed_names_sublist].
  apply NoDup_fst_map_to_list.
Qed.


Lemma listed_row_plain fs now name :
  plain name = true →
  is_Some (listed_row fs now name)
  ↔ ∃ ch, get fs (certs_loc ++ [name]) = Some (Dir ch)
          ∧ is_Some (ch !! (name +:+ ".crt")).
Proof.
  intros Hp. pose proof (plain_no_slash _ Hp) as Hs.
  pose proof (plain_not_dotdot _ Hp) as Hd.
  assert (no_dotdot (certs_loc ++ [name; name +:+ ".crt"])) as Hn.
  { apply Forall_app. split; [apply certs_loc_no_dotdot|].
    repeat constructor; [done|]. apply suffixed_not_dotdot. simpl; lia. }
  unfold listed_row. cbv zeta.
  rewrite child_file_plain by (done || (simpl; lia)). rewrite child_certs.
  rewrite stat_exists_get by done.
  split.
  - destruct (Path.stat_is_dir _ _) eqn:Hdir; cbn [andb]; [|by intros [? ?]].
    apply stat_is_dir_get in Hdir as [ch Hch];
      [|by apply no_dotdot_snoc; [apply certs_loc_no_dotdot|]].
    destruct (bool_decide _) eqn:Hex; [|by intros [? ?]]. intros _.
    apply bool_decide_eq_true in Hex as [x Hx].
    change (certs_loc ++ [name; name +:+ ".crt"])
      with (certs_loc ++ [name] ++ [name +:+ ".crt"]) in Hx.
    rewrite app_assoc, (get_child _ _ _ ch) in Hx by done. eauto.
  - intros (ch & Hch & [x Hx]).
    assert (Path.stat_is_dir fs (PurePath.mk "/" (certs_loc ++ [name])) = true) as ->.
    { apply stat_is_dir_get; [|eauto]. by apply no_dotdot_snoc; [apply certs_loc_no_dotdot|]. }
    rewrite bool_decide_eq_true_2; [done|].
    exists x. change (certs_loc ++ [name; name +:+ ".crt"])
      with (certs_loc ++ [name] ++ [name +:+ ".crt"]).
    by rewrite app_assoc, (get_child _ _ _ ch).
Qed.

(** For a name that is a single path component, the listing has a row
    exactly when [CERTS_DIR/name] is a directory that holds an entry
    [name.crt]. *)
Theorem list_certificates_rows_iff (name : string) (w : world) (out : list cert_row) :
  plain name = true →
  (list_certificates w).1 = Ret out →
  (∃ r, r ∈ out ∧ row_cn r = name)
  ↔ ∃ ch, get (files w) (certs_loc ++ [name]) = Some (Dir ch)
          ∧ is_Some (ch !! (name +:+ ".crt")).
Proof.
  intros Hp. rewrite list_certificates_listed. cbn [fst].
  destruct (listdir _ _) as [names|] eqn:Hl; [|done]. intros [= <-].
  rewrite <- (listed_row_plain (files w) (clock w)) by done.
  apply listdir_certs in Hl as (chc & Hchc & ->).
  split.
  - intros (r & Hr & Hcn). rewrite sorted_by_cn_perm in Hr.
    apply list_elem_of_omap in Hr as (n & _ & Hrow).
    rewrite <- Hcn, (listed_row_cn _ _ _ _ Hrow). eauto.
  - intros [r Hrow]. exists r. split; [|by eapply listed_row_cn].
    rewrite sorted_by_cn_perm. apply list_elem_of_omap. exists name. split; [|done].
    apply elem_of_keys.
    pose proof (listed_row_plain (files w) (clock w) name Hp) as Hiff.
    destruct (proj1 Hiff (mk_is_Some _ _ Hrow)) as (ch & Hch & _).
    rewrite (get_child _ _ _ chc) in Hch by done. eauto.
Qed.

(** The row made from a stored certificate file is in the listing. *)
Lemma row_of_file_listed
    (name : string) (w : world) (out : list cert_row)
    (ch : gmap string node) (data : string) :
  plain name = true →
  get (files w) (certs_loc ++ [name]) = Some (Dir ch) →
  ch !! (name +:+ ".crt") = Some (File data) →
  (list_certificates w).1 = Ret out →
  match load_pem_x509_certificate data with
  | Ret cert => row_of_certificate name cert (clock w)
  | Raise e => row_of_error name e
  end ∈ out.
Proof.
  intros Hp Hch Hcrt. rewrite list_certificates_listed. cbn [fst].
  destruct (listdir _ _) as [names|] eqn:Hl; [|done]. intros [= <-].
  rewrite sorted_by_cn_perm. apply list_elem_of_omap. exists name.
  apply listdir_certs in Hl as (chc & Hchc & ->). split.
  - apply elem_of_keys. rewrite (get_child _ _ _ chc) in Hch by done. eauto.
  - destruct (proj2 (listed_row_plain (files w) (clock w) name Hp)) as [r Hr]; [eauto|].
    rewrite Hr. f_equal. unfold listed_row in Hr. cbv zeta in Hr.
    destruct (_ && _); [|done]. injection Hr as <-.
    rewrite child_file_plain; [|by apply plain_no_slash|done|simpl; lia].
    assert (read (files w) (PurePath.mk "/" (certs_loc ++ [name; name +:+ ".crt"]))
            = Ok data) as ->; [|done].
    unfold read. rewrite (stat_existing _ _ (File data)); [done| |].
    + apply Forall_app. split; [apply certs_loc_no_dotdot|].
      repeat constructor; [by apply plain_not_dotdot|].
      apply suffixed_not_dotdot. simpl; lia.
    + cbn [PurePath.parts].
      change (certs_loc ++ [name; name +:+ ".crt"])
        with (certs_loc ++ [name] ++ [name +:+ ".crt"]).
      by rewrite app_assoc, (get_child _ _ _ ch).
Qed.


(** The row of a stored certificate: when [CERTS_DIR/name/name.crt] is a
    regular file, the listing holds the row built from the parsed
    certificate, or, when the parser raises, the row with the "Unknown"
    fields and the status "Error: " followed by the text of the
    exception. *)
Theorem list_certificates_row_of_file
    (name : string) (w : world) (out : list cert_row)
    (ch : gmap string node) (data : string) :
  plain name = true →
  get (files w) (certs_loc ++ [name]) = Some (Dir ch) →
  ch !! (name +:+ ".crt") = Some (File data) →
  (list_certificates w).1 = Ret out →
  match load_pem_x509_certificate data with
  | Ret cert => row_of_certificate name cert (clock w)
  | Raise e => row_of_error name e
  end ∈ out.
Proof. apply row_of_file_listed. Qed.


End ListingRows.

Lemma sim_two_listing :
  (@list_certificates Sim.platform Scenario.w_two).1
  = Ret [ {| row_cn := "other"; row_issued := "100"; row_expires := "200";
             row_serial := "42"; row_status := "Active" |};
          {| row_cn := "site"; row_issued := "100"; row_expires := "200";
             row_serial := "42"; row_status := "Active" |} ].
Proof. vm_compute. reflexivity. Qed.

Lemma list_certificates_sorted_witness :
  sorted_rows
    [ {| row_cn := "other"; row_issued := "100"; row_expires := "200";
         row_serial := "42"; row_status := "Active" |};
      {| row_cn := "site"; row_issued := "100"; row_expires := "200";
         row_serial := "42"; row_status := "Active" |} ].
Proof.
  apply (@list_certificates_sorted Sim.platform Scenario.w_two). apply sim_two_listing.
Defined.

Lemma list_certificates_distinct_names_witness : NoDup ["other"; "site"].
Proof.
  apply (@list_certificates_distinct_names Sim.platform Scenario.w_two
           [ {| row_cn := "other"; row_issued := "100"; row_expires := "200";
                row_serial := "42"; row_status := "Active" |};
             {| row_cn := "site"; row_issued := "100"; row_expires := "200";
                row_serial := "42"; row_status := "Active" |} ]).
  apply sim_two_listing.
Defined.

Lemma list_certificates_rows_iff_witness :
  (∃ r, r ∈ [ {| row_cn := "other"; row_issued := "100"; row_expires := "200";
                 row_serial := "42"; row_status := "Active" |};
              {| row_cn := "site"; row_issued := "100"; row_expires := "200";
                 row_serial := "42"; row_status := "Active" |} ]
        ∧ row_cn r = "site")
  ↔ ∃ ch, FS.get (files Scenario.w_two) (certs_loc ++ ["site"]) = Some (FS.Dir ch)
          ∧ is_Some (ch !! ("site" +:+ ".crt")).
Proof.
  apply (@list_certificates_rows_iff Sim.platform "site" Scenario.w_two).
  - reflexivity.
  - apply sim_two_listing.
Defined.

Lemma sim_site_listing :
  (@list_certificates Sim.platform Scenario.w_site).1
  = Ret [ {| row_cn := "site"; row_issued := "100"; row_expires := "200";
             row_serial := "42"; row_status := "Active" |} ].
Proof. vm_compute. reflexivity. Qed.

Lemma list_certificates_row_of_file_witness :
  @row_of_certificate Sim.platform "site"
    {| not_valid_before_utc := 100; not_valid_after_utc := 200; serial_number := 42 |} 150
  ∈ [ {| row_cn := "site"; row_issued := "100"; row_expires := "200";
         row_serial := "42"; row_status := "Active" |} ].
Proof.
  apply (@list_certificates_row_of_file Sim.platform "site" Scenario.w_site _
           (list_to_map [ ("site.crt", FS.File "CERT site");
                          ("site.key", FS.File "KEY site") ]) "CERT site").
  - reflexivity.
  - apply sim_site_directory.
  - reflexivity.
  - apply sim_site_listing.
Defined.


(** ** The revoke page *)

Section RevokePage.
Context `{Platform}.
Import FS.

Lemma cert_options_fold (l : list cert_row) (m : gmap string cert_row) k row :
  fold_left (λ m c, <[row_cn c := c]> m) l m !! k = Some row →
  (row ∈ l ∧ row_cn row = k) ∨ m !! k = Some row.
Proof.
  revert m. induction l as [|c l IH]; intros m; cbn [fold_left]; [by right|].
  intros [[Hin Hk]|Hm]%IH.
  - left. split; [by right|done].
  - apply lookup_insert_Some in Hm as [[<- <-]|[_ Hm]]; [|by right].
    left. split; [by left|done].
Qed.

Lemma cert_options_lookup (l : list cert_row) k row :
  cert_options l !! k = Some row → row ∈ l ∧ row_cn row = k.
Proof.
  intros [?|Hm]%cert_options_fold; [done|]. by rewrite lookup_empty in Hm.
Qed.

Lemma active_certs_elem (certs : list cert_row) row :
  row ∈ active_certs certs → row ∈ certs ∧ row_status row = "Active".
Proof.
  unfold active_certs. rewrite !list_elem_of_In, filter_In.
  intros [Hin Hst]. split; [done|]. by apply String.eqb_eq.
Qed.

(** What a click that reaches [revoke_certificate] went through. *)
Lemma revoke_page_click_inv cn w w' r :
  revoke_page_click cn w = (Ret (Some r), w') →
  ∃ out row,
    (list_certificates w).1 = Ret out
    ∧ row ∈ out ∧ row_cn row = cn ∧ row_status row = "Active"
    ∧ revoke_certificate cn (row_serial row) w = (Ret r, w').
Proof.
  unfold revoke_page_click. unfold mbind at 1, M_bind at 1, Py.bind at 1.
  destruct (list_certificates_run w) as [Hw _].
  destruct (list_certificates w) as [[out|e] w1] eqn:Hlist; cbn [fst snd] in *; [|done].
  subst w1. cbv zeta.
  destruct (active_certs out) as [|c0 act] eqn:Hact; [done|].
  destruct (PyStr.truthy cn); [|done].
  destruct (cert_options (c0 :: act) !! cn) as [row|] eqn:Hrow; [|done].
  unfold mbind, M_bind, Py.bind.
  destruct (revoke_certificate cn (row_serial row) w) as [[r'|e] w2] eqn:Hrev; [|done].
  intros [= <- <-].
  apply cert_options_lookup in Hrow as [Hin Hcn]. rewrite <- Hact in Hin.
  apply active_certs_elem in Hin as [Hin Hst].
  by exists out, row.
Qed.

(** The revoke page revokes only what it lists as active: a click that
    reaches [revoke_certificate] passes a common name that has a row with
    the status "Active" in the listing, and the serial of that row. *)
Theorem revoke_page_revokes_active_rows
    (selected_cn : string) (w w' : world) (r : bool * string) :
  revoke_page_click selected_cn w = (Ret (Some r), w') →
  ∃ out row,
    (list_certificates w).1 = Ret out
    ∧ row ∈ out ∧ row_cn row = selected_cn ∧ row_status row = "Active"
    ∧ revoke_certificate selected_cn (row_serial row) w = (Ret r, w').
Proof. apply revoke_page_click_inv. Qed.

(** An active row comes from a certificate file that parses and has not
    expired. *)
Lemma active_row_certificate fs now name row :
  listed_row fs now name = Some row → row_status row = "Active" →
  ∃ data cert,
    read fs (child CERTS_DIR name /: (name +:+ ".crt")) = Ok data
    ∧ load_pem_x509_certificate data = Ret cert
    ∧ now < not_valid_after_utc cert
    ∧ row_serial row = PyStr.of_int (serial_number cert).
Proof.
  unfold listed_row. cbv zeta. destruct (_ && _); [|done]. intros [= <-].
  destruct (read _ _) as [data|code]; [|intros Hst; discriminate Hst].
  destruct (load_pem_x509_certificate data) as [cert|e] eqn:Hload;
    [|intros Hst; discriminate Hst].
  cbn [row_of_certificate row_status row_serial].
  destruct (now <? not_valid_after_utc cert) eqn:Hlt; [|intros Hst; discriminate Hst].
  intros _. exists data, cert. by apply Z.ltb_lt in Hlt.
Qed.

Lemma revoke_page_click_file cn w w' r :
  plain_entries (files w) →
  revoke_page_click cn w = (Ret (Some r), w') →
  ∃ data cert,
    read (files w) (CERTS_DIR /: cn /: (cn +:+ ".crt")) = Ok data
    ∧ load_pem_x509_certificate data = Ret cert
    ∧ clock w < not_valid_after_utc cert
    ∧ revoke_certificate cn (PyStr.of_int (serial_number cert)) w = (Ret r, w').
Proof.
  intros Hplain Hclick.
  destruct (revoke_page_click_inv _ _ _ _ Hclick) as (out & row & Hlist & Hin & Hcn & Hst & Hrev).
  rewrite list_certificates_listed in Hlist. cbn [fst] in Hlist.
  destruct (listdir _ _) as [names|] eqn:Hl; [|done]. injection Hlist as <-.
  rewrite sorted_by_cn_perm in Hin.
  apply list_elem_of_omap in Hin as (name & Hname & Hrow).
  pose proof (listed_row_cn _ _ _ _ Hrow) as Hn. rewrite Hcn in Hn. subst name.
  apply listdir_certs in Hl as (chc & Hchc & ->).
  apply elem_of_keys in Hname.
  pose proof (Hplain chc cn Hchc Hname) as Hp.
  destruct (active_row_certificate _ _ _ _ Hrow Hst) as (data & cert & Hread & Hload & Hlt & Hser).
  exists data, cert. rewrite <- Hser.
  rewrite inner_path_plain by (done || (simpl; lia)).
  rewrite child_file_plain in Hread; [done|by apply plain_no_slash|done|simpl; lia].
Qed.

(** The serial that the revoke page passes on is the serial number, in
    decimal, of the certificate stored in [CERTS_DIR/cn/cn.crt], and that
    certificate has not expired. *)
Theorem revoke_page_uses_stored_serial
    (selected_cn : string) (w w' : world) (r : bool * string) :
  plain_entries (files w) →
  revoke_page_click selected_cn w = (Ret (Some r), w') →
  ∃ data cert,
    read (files w) (CERTS_DIR /: selected_cn /: (selected_cn +:+ ".crt")) = Ok data
    ∧ load_pem_x509_certificate data = Ret cert
    ∧ clock w < not_valid_after_utc cert
    ∧ revoke_certificate selected_cn (PyStr.of_int (serial_number cert)) w = (Ret r, w').
Proof. apply revoke_page_click_file. Qed.

(** From the revoke page the answer "Certificate file not found" cannot
    come: the name clicked has its certificate file. *)
Theorem revoke_page_finds_the_file
    (selected_cn : string) (w w' : world) (ok : bool) (msg : string) :
  plain_entries (files w) →
  revoke_page_click selected_cn w = (Ret (Some (ok, msg)), w') →
  msg ≠ "Certificate file not found".
Proof.
  intros Hplain Hclick.
  destruct (revoke_page_click_file _ _ _ _ Hplain Hclick)
    as (data & cert & Hread & _ & _ & Hrev).
  assert (Path.stat_exists (files w) (CERTS_DIR /: selected_cn /: (selected_cn +:+ ".crt"))
          = true) as Hex.
  { unfold Path.stat_exists. unfold read in Hread. by destruct (stat _ _). }
  rewrite revoke_certificate_run, Hex in Hrev. cbn [negb] in Hrev.
  destruct (run_step_command _ w) as [[tok|e] w1]; [|done].
  destruct (negb (returncode tok =? 0)).
  { injection Hrev as _ <- _. intros Heq. discriminate Heq. }
  destruct (run_step_command _ w1) as [[res|e] w2]; [|done]. cbv zeta in Hrev.
  destruct (_ || _).
  - destruct (mark_revoked _ w2) as [[[]|e] w3]; [|done].
    injection Hrev as _ <- _. destruct (PyStr.contains _ _); intros Heq; discriminate Heq.
  - injection Hrev as _ <- _. intros Heq. discriminate Heq.
Qed.

End RevokePage.

Lemma sim_two_plain_entries : plain_entries (files Scenario.w_two).
Proof.
  intros ch name Hg [x Hx].
  assert (FS.get (files Scenario.w_two) certs_loc
          = Some (FS.Dir (<["other" := Sim.dir [ ("other.crt", FS.File "CERT other");
                                                   ("other.key", FS.File "KEY other") ]]>
                            (<["site" := Sim.dir [ ("site.crt", FS.File "CERT site");
                                                   ("site.key", FS.File "KEY site") ]]> ∅))))
    as Hg' by (vm_compute; reflexivity).
  rewrite Hg' in Hg. injection Hg as <-.
  apply lookup_insert_Some in Hx as [[<- _]|[_ Hx]]; [reflexivity|].
  apply lookup_insert_Some in Hx as [[<- _]|[_ Hx]]; [reflexivity|].
  rewrite lookup_empty in Hx. discriminate Hx.
Qed.

Lemma sim_two_click :
  @revoke_page_click Sim.platform "site" Scenario.w_two
  = (Ret (Some (true, "Certificate revoked successfully")), Scenario.w_two_revoked).
Proof.
  assert ((@revoke_page_click Sim.platform "site" Scenario.w_two).1
          = Ret (Some (true, "Certificate revoked successfully"))) as Hres
    by (vm_compute; reflexivity).
  assert ((@revoke_page_click Sim.platform "site" Scenario.w_two).2
          = Scenario.w_two_revoked) as Hw by (vm_compute; reflexivity).
  rewrite <- Hres, <- Hw. by destruct (revoke_page_click _ _).
Qed.

Lemma revoke_page_revokes_active_rows_witness :
  ∃ out row,
    (@list_certificates Sim.platform Scenario.w_two).1 = Ret out
    ∧ row ∈ out ∧ row_cn row = "site" ∧ row_status row = "Active"
    ∧ @revoke_certificate Sim.platform "site" (row_serial row) Scenario.w_two
      = (Ret (true, "Certificate revoked successfully"), Scenario.w_two_revoked).
Proof.
  apply (@revoke_page_revokes_active_rows Sim.platform "site"
           Scenario.w_two Scenario.w_two_revoked). apply sim_two_click.
Defined.

Lemma revoke_page_uses_stored_serial_witness :
  ∃ data cert,
    FS.read (files Scenario.w_two) (CERTS_DIR /: "site" /: ("site" +:+ ".crt")) = FS.Ok data
    ∧ Sim.load data = Ret cert
    ∧ clock Scenario.w_two < not_valid_after_utc cert
    ∧ @revoke_certificate Sim.platform "site" (PyStr.of_int (serial_number cert))
        Scenario.w_two
      = (Ret (true, "Certificate revoked successfully"), Scenario.w_two_revoked).
Proof.
  apply (@revoke_page_uses_stored_serial Sim.platform "site"
           Scenario.w_two Scenario.w_two_revoked).
  - apply sim_two_plain_entries.
  - apply sim_two_click.
Defined.

Lemma revoke_page_finds_the_file_witness :
  "Certificate revoked successfully" ≠ "Certificate file not found".
Proof.
  apply (@revoke_page_finds_the_file Sim.platform "site"
           Scenario.w_two Scenario.w_two_revoked true).
  - apply sim_two_plain_entries.
  - apply sim_two_click.
Defined.
